(** * ngx-quill: the synchronisation core of the editor and view components

    A shallow embedding of [QuillEditorBase] (quill-editor.component.ts) and
    [QuillViewComponent] (quill-view.component.ts).

    The rich-text engine, the DOM sanitizer and the JavaScript built-ins
    [JSON.parse] / [JSON.stringify] are collaborators that the components
    only consume.  They are gathered in the record [Runtime] and every
    theorem is stated for an arbitrary runtime.  An engine instance is the
    pair of what the component can read from it and the calls the component
    made on it, oldest first. *)

From Stdlib Require Import ZArith Ascii.
From stdpp Require Import base option list strings gmap.

Set Warnings "-register-all".

Local Open Scope string_scope.
Local Open Scope list_scope.
Local Open Scope Z_scope.

(** ** JavaScript values *)

(** Values of type [any] that reach the components.  Numbers are the
    integers ([NaN], fractions and BigInt are outside the model), strings are
    sequences of code units below 256, objects and arrays are finite
    trees. *)
Inductive JsValue : Type :=
| JsUndefined
| JsNull
| JsBool (b : bool)
| JsNumber (n : Z)
| JsString (s : string)
| JsArray (items : list JsValue)
| JsObject (fields : list (string * JsValue)).

(** [if (v)]: the falsy values are [undefined], [null], [false], [0], ['']. *)
Definition truthy (v : JsValue) : bool :=
  match v with
  | JsUndefined | JsNull => false
  | JsBool b => b
  | JsNumber n => negb (n =? 0)
  | JsString s => negb (String.eqb s "")
  | JsArray _ | JsObject _ => true
  end.

(** [v === null] *)
Definition is_null (v : JsValue) : bool :=
  match v with JsNull => true | _ => false end.

(** Truthiness of a [number | undefined] input. *)
Definition truthy_num (n : option Z) : bool :=
  match n with Some k => negb (k =? 0) | None => false end.

(** Truthiness of a [boolean | undefined] input. *)
Definition truthy_flag (b : option bool) : bool :=
  match b with Some true => true | _ => false end.

(** [a || b] on optional configuration values whose present values are all
    truthy (format names, track-changes modes). *)
(** [!!v] for a value of type [T | null] whose present values are objects. *)
Definition isSome {A} (o : option A) : bool :=
  match o with Some _ => true | None => false end.

Definition or_else {A} (a b : option A) : option A :=
  match a with Some _ => a | None => b end.

Definition LF : string := String "010"%char "".

(** *** [String.prototype.trim] *)

(** White space and line terminators among the code units below 256. *)
Definition is_js_space (c : ascii) : bool :=
  let n := nat_of_ascii c in
  ((9 <=? n) && (n <=? 13) || (n =? 32) || (n =? 160))%nat.

Fixpoint trimStart (s : string) : string :=
  match s with
  | EmptyString => EmptyString
  | String c r => if is_js_space c then trimStart r else s
  end.

Fixpoint trimEnd (s : string) : string :=
  match s with
  | EmptyString => EmptyString
  | String c r =>
      match trimEnd r with
      | EmptyString => if is_js_space c then EmptyString else String c EmptyString
      | r' => String c r'
      end
  end.

Definition trim (s : string) : string := trimEnd (trimStart s).

(** ** Exceptions *)

(** [EngineError] stands for whatever the engine throws when it refuses a
    call. *)
Inductive JsError : Type := SyntaxError | TypeError | EngineError.

Inductive Result (A : Type) : Type :=
| Ok (a : A)
| Throw (e : JsError).
Arguments Ok {A} a.
Arguments Throw {A} e.

Definition bind {A B} (r : Result A) (k : A -> Result B) : Result B :=
  match r with Ok a => k a | Throw e => Throw e end.

(** [try { r } catch { h }] *)
Definition try_catch {A} (r : Result A) (h : Result A) : Result A :=
  match r with Ok a => Ok a | Throw _ => h end.

#[global] Instance Result_ret : MRet Result := fun _ a => Ok a.

(** What a method that changes a component leaves behind: the component as
    it is when the method is left, and the exception that left it, if one
    did.  Nothing in the components catches an exception of the engine, so
    a method that throws leaves its earlier assignments and calls in
    place. *)
Definition Outcome (S : Type) : Type := (S * option JsError)%type.

Definition returned {S} (st : S) : Outcome S := (st, None).

Definition thrown {S} (e : JsError) (st : S) : Outcome S := (st, Some e).

(** [m; k]: the statements [k] run unless [m] threw. *)
Definition and_then {S} (m : Outcome S) (k : S -> Outcome S) : Outcome S :=
  match m with
  | (st, None) => k st
  | (st, Some e) => (st, Some e)
  end.

(** What the caller of a method sees. *)
Definition settle {S} (o : Outcome S) : Result S :=
  match o with
  | (st, None) => Ok st
  | (_, Some e) => Throw e
  end.
#[global] Instance Result_bind : MBind Result := fun _ _ k r => bind r k.

(** ** The engine's documents (quill-delta) *)

(** [Op.insert : string | Record<string, unknown>] *)
Inductive OpInsert : Type :=
| InsertText (s : string)
| InsertEmbed (embed : list (string * JsValue)).

Record Op : Type := {
  insert : option OpInsert;
  attributes : option JsValue
}.

Record Delta : Type := { ops : list Op }.

(** [insert.toString()]: a string is itself, a plain record prints as
    [[object Object]]. *)
Definition insert_toString (i : OpInsert) : string :=
  match i with
  | InsertText s => s
  | InsertEmbed _ => "[object Object]"
  end.

Definition insert_value (i : OpInsert) : JsValue :=
  match i with
  | InsertText s => JsString s
  | InsertEmbed e => JsObject e
  end.

Definition op_value (o : Op) : JsValue :=
  JsObject
    (match insert o with Some i => [("insert", insert_value i)] | None => [] end ++
     match attributes o with Some a => [("attributes", a)] | None => [] end).

(** A [Delta] seen as a value of type [any]. *)
Definition delta_value (d : Delta) : JsValue :=
  JsObject [("ops", JsArray (map op_value (ops d)))].

(** ** The engine instance *)

Inductive EventName : Type := SelectionChange | TextChange | EditorChange.

(** The calls on an instance that change it. *)
Inductive Call : Type :=
| SetText (text : JsValue) (source : option string)
| SetContents (delta : JsValue) (source : option string)
| Enable (enabled : option JsValue)
| Disable
| HistoryClear
| On (event : EventName)
| Off (event : EventName).

(** What the components read from an instance. *)
Record Observable : Type := {
  text : string;        (* getText() *)
  contents : Delta      (* getContents() *)
}.

Record Quill : Type := {
  observable : Observable;
  calls : list Call
}.

Definition getText (q : Quill) : string := text (observable q).
Definition getContents (q : Quill) : Delta := contents (observable q).

Definition is_write (c : Call) : bool :=
  match c with SetText _ _ | SetContents _ _ => true | _ => false end.

Definition is_silent_write (c : Call) : bool :=
  match c with
  | SetText _ (Some s) | SetContents _ (Some s) => String.eqb s "silent"
  | _ => false
  end.

(** The options handed to [new Quill(element, options)], as far as they are
    resolved from scalar inputs. *)
Record QuillOptions : Type := {
  opt_placeholder : option string;
  opt_readOnly : bool;
  opt_theme : string
}.

(** ** Collaborators *)

Record Runtime : Type := {
  (** the engine's reaction to a call: what can be read afterwards *)
  respond : Call -> Quill -> Observable;
  (** whether the engine throws on a write that it is free to refuse *)
  refuses : Call -> Quill -> bool;
  (** what can be read from a freshly constructed instance *)
  construct : QuillOptions -> Observable;
  (** [quill.clipboard.convert({ html })] *)
  clipboard_convert : Quill -> JsValue -> Delta;
  (** [JSON.parse(value)]; throws [SyntaxError] on malformed input *)
  JSON_parse : JsValue -> Result JsValue;
  (** [JSON.stringify(value)]; [None] is [undefined] *)
  JSON_stringify : JsValue -> option string;
  (** [DomSanitizer.sanitize(SecurityContext.HTML, value)] *)
  sanitizeHTML : JsValue -> JsValue
}.

Section Engine.
Variable rt : Runtime.

Definition invoke (c : Call) (q : Quill) : Quill :=
  {| observable := respond rt c q; calls := calls q ++ [c] |}.

Definition new_Quill (o : QuillOptions) : Quill :=
  {| observable := construct rt o; calls := [] |}.

Definition invoke_all (cs : list Call) (q : Quill) : Quill :=
  foldl (fun q c => invoke c q) q cs.

(** Whether a call throws.  [setText] is declared for strings and takes
    every string; what the engine does with another value given to
    [setText], and with the document given to [setContents], is for the
    engine to say.  The other calls do not throw.  A call that throws has
    still reached the instance: [invoke] describes the instance after it. *)
Definition refused (c : Call) (q : Quill) : bool :=
  match c with
  | SetText (JsString _) _ => false
  | SetText _ _ | SetContents _ _ => refuses rt c q
  | _ => false
  end.

End Engine.

(** ** Formats *)

Inductive Format : Type := FmtObject | FmtHtml | FmtText | FmtJson.

Inductive TrackChanges : Type := TrackUser | TrackAll.

(** Modelled from the spec: [getFormat] of helpers.ts, which is not among the
    sources.  "the active tag is selected by a format configuration option
    resolved with precedence: component-level override > service-level
    default > 'html'". *)
Definition getFormat (format configFormat : option Format) : Format :=
  match or_else format configFormat with
  | Some f => f
  | None => FmtHtml
  end.

(** [[{ insert: value }]] *)
Definition literal_insert (value : JsValue) : JsValue :=
  JsArray [JsObject [("insert", value)]].

(** The sanitize policy shared by both components:
    [[true, false].includes(sanitize) ? sanitize : (config.sanitize || false)] *)
Definition resolve_sanitize (sanitize configSanitize : option bool) : bool :=
  match sanitize with
  | Some b => b
  | None => truthy_flag configSanitize
  end.

(** [QuillService.config], as far as the two components read it. *)
Record QuillConfig : Type := {
  cfg_format : option Format;
  cfg_sanitize : option bool;
  cfg_trackChanges : option TrackChanges;
  cfg_readOnly : option bool;
  cfg_placeholder : option string;
  cfg_theme : option string
}.

(** [theme || (config.theme ? config.theme : 'snow')] *)
Definition resolve_theme (theme configTheme : option string) : string :=
  let nonempty (o : option string) :=
    match o with Some s => negb (String.eqb s "") | None => false end in
  if nonempty theme then default "" theme
  else if nonempty configTheme then default "" configTheme
  else "snow".

Module Range.
Record t : Type := { index : Z; length : Z }.
End Range.

(** * The editable binder: [QuillEditorBase] *)

Module QuillEditorBase.

(** The signal inputs that the modelled methods read. *)
Record Inputs : Type := {
  format : option Format;
  theme : option string;
  readOnly : option bool;
  placeholder : option string;
  maxLength : option Z;
  minLength : option Z;
  required : bool;
  sanitize : option bool;
  trackChanges : option TrackChanges;
  trimOnValidation : bool;
  compareValues : bool;
  filterNull : bool;
  debounceTime : option Z
}.

(** One [fromEvent(quill, event)] subscription; [debounce] is the interval of
    the [debounceTime] operator piped in front of the handler, if any. *)
Record Listener : Type := {
  event : EventName;
  debounce : option Z
}.

(** An rxjs [Subscription] object with the listeners added to it. *)
Record Subscription : Type := {
  closed : bool;
  listeners : list Listener
}.

(** What the component sends out through its subjects and callbacks. *)
Inductive Emission : Type :=
| OnBlur (source : string)
| OnFocus (source : string)
| OnSelectionChanged (oldRange range : option Range.t) (source : string)
| ModelTouched.

Definition is_blur (e : Emission) : bool :=
  match e with OnBlur _ => true | _ => false end.

Definition is_focus (e : Emission) : bool :=
  match e with OnFocus _ => true | _ => false end.

Definition is_selectionChanged (e : Emission) : bool :=
  match e with OnSelectionChanged _ _ _ => true | _ => false end.

(** [Subject.observed] of the three selection outputs. *)
Record Observers : Type := {
  onBlur_observed : bool;
  onFocus_observed : bool;
  onSelectionChanged_observed : bool
}.

Record Editor : Type := {
  inputs : Inputs;
  config : QuillConfig;
  observers : Observers;
  _quillEditor : option Quill;
  _content : JsValue;
  _disabled : bool;
  (** whether [registerOnTouched] has stored a callback *)
  _onModelTouched : bool;
  (** the [Subscription] objects created so far, and which of them the
      field [_eventsSubscription] refers to *)
  subscriptions : list Subscription;
  _eventsSubscription : option nat;
  (** attributes of the host element, as written through [Renderer2] *)
  hostAttributes : gmap string string;
  (** emissions, oldest first *)
  emitted : list Emission
}.

Definition set_inputs (i : Inputs) (st : Editor) : Editor :=
  {| inputs := i; config := config st; observers := observers st;
     _quillEditor := _quillEditor st; _content := _content st;
     _disabled := _disabled st; _onModelTouched := _onModelTouched st;
     subscriptions := subscriptions st;
     _eventsSubscription := _eventsSubscription st;
     hostAttributes := hostAttributes st; emitted := emitted st |}.

Definition set_quillEditor (q : option Quill) (st : Editor) : Editor :=
  {| inputs := inputs st; config := config st; observers := observers st;
     _quillEditor := q; _content := _content st;
     _disabled := _disabled st; _onModelTouched := _onModelTouched st;
     subscriptions := subscriptions st;
     _eventsSubscription := _eventsSubscription st;
     hostAttributes := hostAttributes st; emitted := emitted st |}.

Definition set_content (v : JsValue) (st : Editor) : Editor :=
  {| inputs := inputs st; config := config st; observers := observers st;
     _quillEditor := _quillEditor st; _content := v;
     _disabled := _disabled st; _onModelTouched := _onModelTouched st;
     subscriptions := subscriptions st;
     _eventsSubscription := _eventsSubscription st;
     hostAttributes := hostAttributes st; emitted := emitted st |}.

Definition set_disabled (b : bool) (st : Editor) : Editor :=
  {| inputs := inputs st; config := config st; observers := observers st;
     _quillEditor := _quillEditor st; _content := _content st;
     _disabled := b; _onModelTouched := _onModelTouched st;
     subscriptions := subscriptions st;
     _eventsSubscription := _eventsSubscription st;
     hostAttributes := hostAttributes st; emitted := emitted st |}.

Definition set_subscriptions (subs : list Subscription) (cur : option nat)
    (st : Editor) : Editor :=
  {| inputs := inputs st; config := config st; observers := observers st;
     _quillEditor := _quillEditor st; _content := _content st;
     _disabled := _disabled st; _onModelTouched := _onModelTouched st;
     subscriptions := subs;
     _eventsSubscription := cur;
     hostAttributes := hostAttributes st; emitted := emitted st |}.

Definition set_hostAttributes (a : gmap string string) (st : Editor) : Editor :=
  {| inputs := inputs st; config := config st; observers := observers st;
     _quillEditor := _quillEditor st; _content := _content st;
     _disabled := _disabled st; _onModelTouched := _onModelTouched st;
     subscriptions := subscriptions st;
     _eventsSubscription := _eventsSubscription st;
     hostAttributes := a; emitted := emitted st |}.

(** [subject.next(e)] *)
Definition emit (e : Emission) (st : Editor) : Editor :=
  {| inputs := inputs st; config := config st; observers := observers st;
     _quillEditor := _quillEditor st; _content := _content st;
     _disabled := _disabled st; _onModelTouched := _onModelTouched st;
     subscriptions := subscriptions st;
     _eventsSubscription := _eventsSubscription st;
     hostAttributes := hostAttributes st; emitted := emitted st ++ [e] |}.

Definition with_debounceTime (d : option Z) (i : Inputs) : Inputs :=
  {| format := format i; theme := theme i; readOnly := readOnly i;
     placeholder := placeholder i; maxLength := maxLength i;
     minLength := minLength i; required := required i;
     sanitize := sanitize i; trackChanges := trackChanges i;
     trimOnValidation := trimOnValidation i;
     compareValues := compareValues i; filterNull := filterNull i;
     debounceTime := d |}.

(** The result of [validate()] when it is not [null]. *)
Record ValidationErrors : Type := {
  minLengthError : option (Z * Z);   (* given, minLength *)
  maxLengthError : option (Z * Z);   (* given, maxLength *)
  requiredError : option bool        (* empty *)
}.

(** The component after its field initialisers have run. *)
Definition created (i : Inputs) (c : QuillConfig) (o : Observers) : Editor :=
  {| inputs := i; config := c; observers := o;
     _quillEditor := None; _content := JsUndefined;
     _disabled := false; _onModelTouched := false;
     subscriptions := []; _eventsSubscription := None;
     hostAttributes := ∅; emitted := [] |}.

Definition registerOnTouched (st : Editor) : Editor :=
  {| inputs := inputs st; config := config st; observers := observers st;
     _quillEditor := _quillEditor st; _content := _content st;
     _disabled := _disabled st; _onModelTouched := true;
     subscriptions := subscriptions st;
     _eventsSubscription := _eventsSubscription st;
     hostAttributes := hostAttributes st; emitted := emitted st |}.

Section Methods.
Variable rt : Runtime.

(** [this._quillEditor.m(...)] where the instance is known to exist. *)
Definition call (c : Call) (st : Editor) : Editor :=
  set_quillEditor (invoke rt c <$> _quillEditor st) st.

Definition resolved_format (st : Editor) : Format :=
  getFormat (format (inputs st)) (cfg_format (config st)).

(** The default of the [valueSetter] input. *)
Definition valueSetter (st : Editor) (quillEditor : Quill) (value : JsValue)
    : Result JsValue :=
  match resolved_format st with
  | FmtHtml =>
      let sanitize :=
        resolve_sanitize (sanitize (inputs st)) (cfg_sanitize (config st)) in
      let value := if sanitize then sanitizeHTML rt value else value in
      Ok (delta_value (clipboard_convert rt quillEditor value))
  | FmtJson =>
      try_catch (JSON_parse rt value) (Ok (literal_insert value))
  | FmtObject | FmtText => Ok value
  end.

(** [this.quillEditor.setText(...)] and [this.quillEditor.setContents(...)]:
    the instance receives the call, and the call throws if the engine
    refuses it.  Without an instance the member access itself throws; the
    callers only write where the instance exists. *)
Definition write (c : Call) (st : Editor) : Outcome Editor :=
  match _quillEditor st with
  | Some q =>
      if refused rt c q then thrown EngineError (call c st)
      else returned (call c st)
  | None => thrown TypeError (call c st)
  end.

Definition writeValue_run (currentValue : JsValue) (st : Editor)
    : Outcome Editor :=
  if filterNull (inputs st) && is_null currentValue then returned st
  else
    let st := set_content currentValue st in
    match _quillEditor st with
    | None => returned st
    | Some q =>
        let format := resolved_format st in
        match valueSetter st q currentValue with
        | Throw e => thrown e st
        | Ok newValue =>
            if compareValues (inputs st) &&
               bool_decide (JSON_stringify rt (delta_value (getContents q))
                            = JSON_stringify rt newValue)
            then returned st
            else if truthy currentValue then
              match format with
              | FmtText => write (SetText currentValue None) st
              | _ => write (SetContents newValue None) st
              end
            else write (SetText (JsString "") None) st
        end
    end.

(** [writeValue] as its caller sees it. *)
Definition writeValue (currentValue : JsValue) (st : Editor) : Result Editor :=
  settle (writeValue_run currentValue st).

Definition setDisabledState (isDisabled : option bool) (st : Editor) : Editor :=
  let isDisabled := default (_disabled st) isDisabled in
  let st := set_disabled isDisabled st in
  match _quillEditor st with
  | Some _ =>
      if isDisabled then
        let st := call Disable st in
        set_hostAttributes (<["disabled" := "disabled"]> (hostAttributes st)) st
      else
        let st :=
          if negb (truthy_flag (readOnly (inputs st)))
          then call (Enable None) st else st in
        set_hostAttributes (delete "disabled" (hostAttributes st)) st
  | None => st
  end.

(** The effective text length computed by [validate()]. *)
Definition textLength (trimOnValidation : bool) (text : string) : Z :=
  if trimOnValidation then Z.of_nat (String.length (trim text))
  else if (String.length text =? 1)%nat && (String.length (trim text) =? 0)%nat
       then 0
       else Z.of_nat (String.length text) - 1.

(** The effective text length in the words of the specification: the
    trimmed length when trimming is asked for, otherwise the raw length minus
    one, a text that is exactly one newline counting as empty. *)
Definition spec_effective_length (trimOnValidation : bool) (text : string) : Z :=
  if trimOnValidation then Z.of_nat (String.length (trim text))
  else if String.eqb text LF then 0
  else Z.of_nat (String.length text) - 1.

(** [['\n', ''].includes(op.insert?.toString())] *)
Definition is_empty_insert (o : Op) : bool :=
  match insert o with
  | Some i =>
      let s := insert_toString i in String.eqb s LF || String.eqb s ""
  | None => false
  end.

Definition onlyEmptyOperation (deltaOperations : list Op) : bool :=
  match deltaOperations with
  | [o] => is_empty_insert o
  | _ => false
  end.

Definition validate (st : Editor) : option ValidationErrors :=
  match _quillEditor st with
  | None => None
  | Some q =>
      let text := getText q in
      let textLength := textLength (trimOnValidation (inputs st)) text in
      let deltaOperations := ops (getContents q) in
      let onlyEmptyOperation := onlyEmptyOperation deltaOperations in
      let tooShort :=
        truthy_num (minLength (inputs st)) && negb (textLength =? 0) &&
        (textLength <? default 0 (minLength (inputs st))) in
      let tooLong :=
        truthy_num (maxLength (inputs st)) &&
        (default 0 (maxLength (inputs st)) <? textLength) in
      let empty :=
        required (inputs st) && (textLength =? 0) && onlyEmptyOperation in
      let err :=
        {| minLengthError :=
             if tooShort
             then Some (textLength, default 0 (minLength (inputs st)))
             else None;
           maxLengthError :=
             if tooLong
             then Some (textLength, default 0 (maxLength (inputs st)))
             else None;
           requiredError := if empty then Some true else None |} in
      let valid := negb tooShort && negb tooLong && negb empty in
      if valid then None else Some err
  end.

(** [subscription.unsubscribe()]: a closed subscription is left alone,
    an open one is closed and detaches its listeners in the order in which
    they were added. *)
Definition unsubscribe (i : nat) (st : Editor) : Editor :=
  match subscriptions st !! i with
  | Some s =>
      if closed s then st
      else
        let offs := (fun l => Off (event l)) <$> listeners s in
        let st :=
          set_quillEditor (invoke_all rt offs <$> _quillEditor st) st in
        set_subscriptions
          (<[i := {| closed := true; listeners := listeners s |}]>
             (subscriptions st))
          (_eventsSubscription st) st
  | None => st
  end.

Definition _dispose (st : Editor) : Editor :=
  let st :=
    match _eventsSubscription st with
    | Some i => unsubscribe i st
    | None => st
    end in
  set_subscriptions (subscriptions st) None st.

(** The three listeners of one registration set, for the current value of
    the [debounceTime] input. *)
Definition listeners_for (debounceTime : option Z) : list Listener :=
  [ {| event := SelectionChange; debounce := None |};
    {| event := TextChange; debounce := debounceTime |};
    {| event := EditorChange; debounce := debounceTime |} ].

(** [fromEvent] refuses a target that is not an event emitter, which is what
    the guard of the callers excludes; the fresh subscription is assigned
    before that. *)
Definition _addQuillEventListeners_run (st : Editor) : Outcome Editor :=
  let st := _dispose st in
  match _quillEditor st with
  | None =>
      thrown TypeError
        (set_subscriptions
           (subscriptions st ++ [{| closed := false; listeners := [] |}])
           (Some (length (subscriptions st))) st)
  | Some q =>
      let ls := listeners_for (debounceTime (inputs st)) in
      let q := invoke_all rt ((fun l => On (event l)) <$> ls) q in
      returned
        (set_quillEditor (Some q)
           (set_subscriptions
              (subscriptions st ++ [{| closed := false; listeners := ls |}])
              (Some (length (subscriptions st))) st))
  end.

Definition _addQuillEventListeners (st : Editor) : Result Editor :=
  settle (_addQuillEventListeners_run st).

(** The subscriber of [toObservable(this.debounceTime)]. *)
Definition debounceTime_subscriber_run (debounceTime : option Z) (st : Editor)
    : Outcome Editor :=
  match _quillEditor st with
  | None => returned st
  | Some _ =>
      if truthy_num debounceTime then _addQuillEventListeners_run st
      else returned st
  end.

Definition debounceTime_subscriber (debounceTime : option Z) (st : Editor)
    : Result Editor :=
  settle (debounceTime_subscriber_run debounceTime st).

(** The [debounceTime] input changes and its subscriber runs. *)
Definition change_debounceTime_run (d : option Z) (st : Editor)
    : Outcome Editor :=
  debounceTime_subscriber_run d
    (set_inputs (with_debounceTime d (inputs st)) st).

Definition change_debounceTime (d : option Z) (st : Editor) : Result Editor :=
  settle (change_debounceTime_run d st).

(** The subscriber of [toObservable(this.readOnly)]. *)
Definition readOnly_subscriber (readOnly : option bool) (st : Editor) : Editor :=
  match _quillEditor st with
  | Some _ =>
      call (Enable (Some (match readOnly with
                          | Some b => JsBool b
                          | None => JsUndefined
                          end))) st
  | None => st
  end.

Definition resolved_options (st : Editor) : QuillOptions :=
  {| opt_placeholder :=
       match or_else (placeholder (inputs st)) (cfg_placeholder (config st)) with
       | Some p => Some p
       | None => Some "Insert text here ..."
       end;
     opt_readOnly :=
       match readOnly (inputs st) with
       | Some b => b
       | None => default false (cfg_readOnly (config st))
       end;
     opt_theme := resolve_theme (theme (inputs st)) (cfg_theme (config st)) |}.

(** The subscriber of the engine loader inside [afterNextRender]: the
    instance is constructed, the buffered value is flushed, the disabled
    state is applied and the listeners are attached.  Styles, classes, the
    toolbar and the native focus listeners only touch the DOM and are left
    out. *)
Definition onQuillLoaded_run (st : Editor) : Outcome Editor :=
  let q := new_Quill rt (resolved_options st) in
  let st := set_quillEditor (Some q) st in
  and_then
    (if truthy (_content st) then
       and_then
         (match resolved_format st with
          | FmtText => write (SetText (_content st) (Some "silent")) st
          | _ =>
              match valueSetter st q (_content st) with
              | Ok newValue => write (SetContents newValue (Some "silent")) st
              | Throw e => thrown e st
              end
          end)
         (fun st => returned (call HistoryClear st))
     else returned st)
    (fun st =>
       let st := setDisabledState None st in
       _addQuillEventListeners_run st).

(** The loader's subscriber as its caller sees it. *)
Definition onQuillLoaded (st : Editor) : Result Editor :=
  settle (onQuillLoaded_run st).

Definition track_all (t : option TrackChanges) : bool :=
  match t with Some TrackAll => true | _ => false end.

Definition shouldTriggerOnModelTouched (range : option Range.t)
    (source : string) (st : Editor) : bool :=
  let trackChanges :=
    or_else (trackChanges (inputs st)) (cfg_trackChanges (config st)) in
  negb (isSome range) && _onModelTouched st &&
  (String.eqb source "user" || track_all trackChanges).

(** The condition of the early return: nobody listens and the model is not
    to be marked as touched. *)
Definition selection_suppressed (range : option Range.t) (source : string)
    (st : Editor) : bool :=
  negb (onBlur_observed (observers st)) &&
  negb (onFocus_observed (observers st)) &&
  negb (onSelectionChanged_observed (observers st)) &&
  negb (shouldTriggerOnModelTouched range source st).

Definition selectionChangeHandler (range oldRange : option Range.t)
    (source : string) (st : Editor) : Editor :=
  if selection_suppressed range source st then st
  else
    let st' :=
      match range, oldRange with
      | None, _ => emit (OnBlur source) st
      | Some _, None => emit (OnFocus source) st
      | Some _, Some _ => st
      end in
    let st' := emit (OnSelectionChanged oldRange range source) st' in
    if shouldTriggerOnModelTouched range source st
    then emit ModelTouched st' else st'.

(** The [DestroyRef.onDestroy] callback. *)
Definition onDestroy (st : Editor) : Editor := _dispose st.

(** *** The life of a component *)

(** What happens to a component between its creation and its destruction.
    The engine loader emits once, so [QuillLoaded] only acts on a component
    without an instance; selection events only come from an instance. *)
Inductive Action : Type :=
| RegisterOnTouched
| WriteValue (value : JsValue)
| SetDisabledState (isDisabled : bool)
| ChangeDebounceTime (debounceTime : option Z)
| QuillLoaded
| SelectionChanged (range oldRange : option Range.t) (source : string).

Definition run (a : Action) (st : Editor) : Outcome Editor :=
  match a with
  | RegisterOnTouched => returned (registerOnTouched st)
  | WriteValue v => writeValue_run v st
  | SetDisabledState b => returned (setDisabledState (Some b) st)
  | ChangeDebounceTime d => change_debounceTime_run d st
  | QuillLoaded =>
      match _quillEditor st with
      | None => onQuillLoaded_run st
      | Some _ => returned st
      end
  | SelectionChanged range oldRange source =>
      match _quillEditor st with
      | Some _ => returned (selectionChangeHandler range oldRange source st)
      | None => returned st
      end
  end.

Definition step (a : Action) (st : Editor) : Result Editor :=
  settle (run a st).

(** The states of a component: the one it is created in, and the one any
    action leaves behind, whether it returned or threw.  In particular a
    load that stops at a refused flush leaves a component with an instance
    to which no listener is attached. *)
Inductive reachable : Editor -> Prop :=
| reachable_created i c o : reachable (created i c o)
| reachable_run a st : reachable st -> reachable (fst (run a st)).

End Methods.

(** *** Registration sets *)

(** The number of registration sets that are alive: the [Subscription]
    objects that have not been unsubscribed. *)
Definition alive (st : Editor) : nat :=
  length (List.filter (fun s => negb (closed s)) (subscriptions st)).

(** The [off] calls that unsubscribing the current subscription makes. *)
Definition detached (st : Editor) : list Call :=
  match _eventsSubscription st with
  | Some i =>
      match subscriptions st !! i with
      | Some s => if closed s then [] else (fun l => Off (event l)) <$> listeners s
      | None => []
      end
  | None => []
  end.

(** The subscription objects once the current one is unsubscribed. *)
Definition current_closed (st : Editor) : list Subscription :=
  match _eventsSubscription st with
  | Some i =>
      match subscriptions st !! i with
      | Some s =>
          <[i := {| closed := true; listeners := listeners s |}]>
            (subscriptions st)
      | None => subscriptions st
      end
  | None => subscriptions st
  end.

(** The calls that [setDisabledState] makes on an instance. *)
Definition toggle_calls (isDisabled : option bool) (st : Editor) : list Call :=
  if default (_disabled st) isDisabled then [Disable]
  else if truthy_flag (readOnly (inputs st)) then []
  else [Enable None].

(** [st'] differs from [st] in nothing that concerns listener registration
    and has an instance if [st] has one. *)
Definition registration_untouched (st st' : Editor) : Prop :=
  subscriptions st' = subscriptions st /\
  _eventsSubscription st' = _eventsSubscription st /\
  (is_Some (_quillEditor st) -> is_Some (_quillEditor st')).

(** Every subscription that is still open is the one that the field
    [_eventsSubscription] refers to, the field refers to an open
    subscription and is only set on a component with an instance, and every
    subscription listens to the three events. *)
Definition registration_inv (st : Editor) : Prop :=
  (forall k s, subscriptions st !! k = Some s -> closed s = false ->
               _eventsSubscription st = Some k) /\
  (forall k, _eventsSubscription st = Some k ->
             is_Some (_quillEditor st) /\
             exists s, subscriptions st !! k = Some s /\ closed s = false) /\
  (forall k s, subscriptions st !! k = Some s ->
               event <$> listeners s
               = [SelectionChange; TextChange; EditorChange]).

(** [w] is the write by which the loader hands the buffered value to the
    fresh instance: the value itself as a text under the text format, what
    [valueSetter] makes of it as contents under the other formats, with the
    source [silent]. *)
Definition flushes (rt : Runtime) (st : Editor) (w : Call) : Prop :=
  match resolved_format st with
  | FmtText => w = SetText (_content st) (Some "silent")
  | _ =>
      exists nv,
        valueSetter rt st (new_Quill rt (resolved_options st)) (_content st)
        = Ok nv /\
        w = SetContents nv (Some "silent")
  end.

End QuillEditorBase.

(** * The read-only binder: [QuillViewComponent] *)

Module QuillViewComponent.

Record Inputs : Type := {
  format : option Format;
  theme : option string;
  sanitize : option bool;
  strict : bool;
  content : JsValue
}.

Record View : Type := {
  inputs : Inputs;
  config : QuillConfig;
  quillEditor : option Quill
}.

Definition set_quillEditor (q : option Quill) (st : View) : View :=
  {| inputs := inputs st; config := config st; quillEditor := q |}.

Definition with_content (v : JsValue) (i : Inputs) : Inputs :=
  {| format := format i; theme := theme i; sanitize := sanitize i;
     strict := strict i; content := v |}.

Definition set_inputs (i : Inputs) (st : View) : View :=
  {| inputs := i; config := config st; quillEditor := quillEditor st |}.

Section Methods.
Variable rt : Runtime.

Definition resolved_format (st : View) : Format :=
  getFormat (format (inputs st)) (cfg_format (config st)).

(** [valueSetter] writes to the instance it is given; the instance after the
    write is returned. *)
Definition valueSetter (st : View) (quillEditor : Quill) (value : JsValue)
    : Result Quill :=
  match resolved_format st with
  | FmtText => Ok (invoke rt (SetText value None) quillEditor)
  | FmtHtml =>
      let sanitize :=
        resolve_sanitize (sanitize (inputs st)) (cfg_sanitize (config st)) in
      let value := if sanitize then sanitizeHTML rt value else value in
      let content := delta_value (clipboard_convert rt quillEditor value) in
      Ok (invoke rt (SetContents content None) quillEditor)
  | FmtJson =>
      content ← try_catch (JSON_parse rt value) (Ok (literal_insert value));
      Ok (invoke rt (SetContents content None) quillEditor)
  | FmtObject => Ok (invoke rt (SetContents value None) quillEditor)
  end.

(** The subscriber of [toObservable(this.content)]. *)
Definition content_subscriber (content : JsValue) (st : View) : Result View :=
  match quillEditor st with
  | None => Ok st
  | Some q =>
      if truthy content then
        q ← valueSetter st q content;
        Ok (set_quillEditor (Some q) st)
      else Ok st
  end.

(** The [content] input changes and its subscriber runs. *)
Definition change_content (v : JsValue) (st : View) : Result View :=
  content_subscriber v (set_inputs (with_content v (inputs st)) st).

Definition resolved_options (st : View) : QuillOptions :=
  {| opt_placeholder := None;
     opt_readOnly := true;
     opt_theme := resolve_theme (theme (inputs st)) (cfg_theme (config st)) |}.

(** The subscriber of the engine loader inside [afterNextRender]. *)
Definition onQuillLoaded (st : View) : Result View :=
  let q := new_Quill rt (resolved_options st) in
  let st := set_quillEditor (Some q) st in
  if truthy (content (inputs st)) then
    q ← valueSetter st q (content (inputs st));
    Ok (set_quillEditor (Some q) st)
  else Ok st.

End Methods.

End QuillViewComponent.

(** * A runtime and component states to evaluate the model on *)

Module Sample.

(** A stand-in engine: the text and contents of an instance follow the last
    plain-text write, other calls leave them as they are. *)
Definition stub_respond (c : Call) (q : Quill) : Observable :=
  match c with
  | SetText (JsString s) _ =>
      {| text := s +:+ LF;
         contents :=
           {| ops := [{| insert := Some (InsertText (s +:+ LF));
                         attributes := None |}] |} |}
  | _ => observable q
  end.

(** The stand-in engine refuses what is not a string as a text. *)
Definition stub_refuses (c : Call) (q : Quill) : bool :=
  match c with
  | SetText (JsString _) _ => false
  | SetText _ _ => true
  | _ => false
  end.

Definition empty_document : Observable :=
  {| text := LF;
     contents :=
       {| ops := [{| insert := Some (InsertText LF); attributes := None |}] |} |}.

(** Parses the literals [null] and [[]] and refuses everything else. *)
Definition stub_parse (v : JsValue) : Result JsValue :=
  match v with
  | JsString s =>
      if String.eqb s "null" then Ok JsNull
      else if String.eqb s "[]" then Ok (JsArray [])
      else Throw SyntaxError
  | JsNull => Ok JsNull
  | _ => Throw SyntaxError
  end.

Definition quote : string := String "034"%char "".

Definition stub_stringify (v : JsValue) : option string :=
  match v with
  | JsUndefined => None
  | JsNull => Some "null"
  | JsString s => Some (quote +:+ s +:+ quote)
  | JsArray [] => Some "[]"
  | _ => Some "{}"
  end.

Definition runtime : Runtime :=
  {| respond := stub_respond;
     refuses := stub_refuses;
     construct := fun _ => empty_document;
     clipboard_convert := fun _ _ => {| ops := [] |};
     JSON_parse := stub_parse;
     JSON_stringify := stub_stringify;
     sanitizeHTML := fun v => v |}.

Definition config : QuillConfig :=
  {| cfg_format := None; cfg_sanitize := None; cfg_trackChanges := None;
     cfg_readOnly := None; cfg_placeholder := None; cfg_theme := None |}.

Definition observers : QuillEditorBase.Observers :=
  {| QuillEditorBase.onBlur_observed := true;
     QuillEditorBase.onFocus_observed := true;
     QuillEditorBase.onSelectionChanged_observed := true |}.

(** The inputs at their defaults, except for the ones listed. *)
Definition editor_inputs (format : option Format) (filterNull required : bool)
    (minLength maxLength debounceTime : option Z) : QuillEditorBase.Inputs :=
  {| QuillEditorBase.format := format;
     QuillEditorBase.theme := None;
     QuillEditorBase.readOnly := Some false;
     QuillEditorBase.placeholder := None;
     QuillEditorBase.maxLength := maxLength;
     QuillEditorBase.minLength := minLength;
     QuillEditorBase.required := required;
     QuillEditorBase.sanitize := None;
     QuillEditorBase.trackChanges := None;
     QuillEditorBase.trimOnValidation := false;
     QuillEditorBase.compareValues := false;
     QuillEditorBase.filterNull := filterNull;
     QuillEditorBase.debounceTime := debounceTime |}.

(** An editor that has not loaded the engine yet, after [writeValue(v)]. *)
Definition waiting (i : QuillEditorBase.Inputs) (v : JsValue)
    : QuillEditorBase.Editor :=
  QuillEditorBase.set_content v (QuillEditorBase.created i config observers).

Definition unwrap {A} (r : Result A) (d : A) : A :=
  match r with Ok a => a | Throw _ => d end.

(** The same editor once the engine has loaded. *)
Definition ready (i : QuillEditorBase.Inputs) (v : JsValue)
    : QuillEditorBase.Editor :=
  unwrap (QuillEditorBase.onQuillLoaded runtime (waiting i v)) (waiting i v).

(** The same editor as the loader leaves it, also if the loader threw. *)
Definition loaded (i : QuillEditorBase.Inputs) (v : JsValue)
    : QuillEditorBase.Editor :=
  fst (QuillEditorBase.onQuillLoaded_run runtime (waiting i v)).

Definition ready_quill (i : QuillEditorBase.Inputs) (v : JsValue) : Quill :=
  default (new_Quill runtime (QuillEditorBase.resolved_options (waiting i v)))
          (QuillEditorBase._quillEditor (ready i v)).

Definition view_inputs (format : option Format) (content : JsValue)
    : QuillViewComponent.Inputs :=
  {| QuillViewComponent.format := format;
     QuillViewComponent.theme := None;
     QuillViewComponent.sanitize := None;
     QuillViewComponent.strict := true;
     QuillViewComponent.content := content |}.

Definition view_waiting (format : option Format) (content : JsValue)
    : QuillViewComponent.View :=
  {| QuillViewComponent.inputs := view_inputs format content;
     QuillViewComponent.config := config;
     QuillViewComponent.quillEditor := None |}.

Definition view_ready (format : option Format) (content : JsValue)
    : QuillViewComponent.View :=
  unwrap (QuillViewComponent.onQuillLoaded runtime (view_waiting format content))
         (view_waiting format content).

End Sample.

(** * Kinds of calls and emissions *)

#[global] Instance TrackChanges_eq_dec : EqDecision TrackChanges.
Proof. solve_decision. Defined.

(** A write without a source argument, which the engine takes as [api]. *)
Definition is_plain_write (c : Call) : bool :=
  match c with
  | SetText _ None | SetContents _ None => true
  | _ => false
  end.

(** [enable(...)] and [disable()]. *)
Definition is_toggle (c : Call) : bool :=
  match c with
  | Enable _ | Disable => true
  | _ => false
  end.

(** No call of the list is a silent write. *)
Definition loud (cs : list Call) : bool :=
  forallb (fun c => negb (is_silent_write c)) cs.

Definition is_modelTouched (e : QuillEditorBase.Emission) : bool :=
  match e with QuillEditorBase.ModelTouched => true | _ => false end.

(** * Styling the editor element *)

(** [normalizeClassNames], [addClasses], [removeClasses] and the subscribers
    of the [classes] and [styles] inputs.  They only touch the editor
    element, which is modelled by its class list and its inline styles. *)
Module Styling.

(** [s.split(' ')] *)
Fixpoint split_space (s : string) : list string :=
  match s with
  | EmptyString => [EmptyString]
  | String c r =>
      if Ascii.eqb c " " then EmptyString :: split_space r
      else
        match split_space r with
        | p :: ps => String c p :: ps
        | [] => [String c EmptyString]
        end
  end.

(** A string that does not begin with white space. *)
Definition no_leading_space (s : string) : Prop :=
  match s with
  | EmptyString => True
  | String c _ => is_js_space c = false
  end.

(** Whether the space character occurs in a string. *)
Fixpoint contains_space (s : string) : bool :=
  match s with
  | EmptyString => false
  | String c r => Ascii.eqb c " " || contains_space r
  end.

(** The class names of a [string | undefined] value. *)
Definition names_of (normalize : string -> list string) (classes : option string)
    : list string :=
  match classes with Some s => normalize s | None => [] end.

Definition normalizeClassNames (classes : string) : list string :=
  let classList := split_space (trim classes) in
  foldl (fun prev cur =>
           let trimmed := trim cur in
           if negb (String.eqb trimmed "") then prev ++ [trimmed] else prev)
        [] classList.

Record Element : Type := {
  classList : gset string;
  style : gmap string JsValue
}.

(** [renderer.addClass(el, c)] *)
Definition addClass (c : string) (el : Element) : Element :=
  {| classList := {[c]} ∪ classList el; style := style el |}.

(** [renderer.removeClass(el, c)] *)
Definition removeClass (c : string) (el : Element) : Element :=
  {| classList := classList el ∖ {[c]}; style := style el |}.

(** [renderer.setStyle(el, key, value)] *)
Definition setStyle (key : string) (value : JsValue) (el : Element) : Element :=
  {| classList := classList el; style := <[key := value]> (style el) |}.

(** [renderer.removeStyle(el, key)] *)
Definition removeStyle (key : string) (el : Element) : Element :=
  {| classList := classList el; style := delete key (style el) |}.

Definition addClasses (classNames : string) (el : Element) : Element :=
  foldl (fun el c => addClass c el) el (normalizeClassNames classNames).

(** The call of [console.log] is left out. *)
Definition removeClasses (classNames : string) (el : Element) : Element :=
  foldl (fun el c => removeClass c el) el (normalizeClassNames classNames).

(** The editor element with what the component remembers about it. *)
Record Styled : Type := {
  _editorElem : Element;
  _previousStyles : option (gmap string JsValue);
  _previousClasses : option string
}.

(** Truthiness of a [string | undefined] input. *)
Definition truthy_text (s : option string) : bool :=
  match s with Some s => negb (String.eqb s "") | None => false end.

(** [Object.keys(o)] *)
Definition keys (o : gmap string JsValue) : list string :=
  (map_to_list o).*1.

(** [o[key]] *)
Definition get (o : gmap string JsValue) (key : string) : JsValue :=
  default JsUndefined (o !! key).

(** The own property [key] of a styles value, if it is an object that has
    one. *)
Definition property (styles : option (gmap string JsValue)) (key : string)
    : option JsValue :=
  match styles with Some o => o !! key | None => None end.

(** The subscriber of [toObservable(this.classes)]. *)
Definition classes_subscriber (classes : option string) (st : Styled) : Styled :=
  let currentClasses := classes in
  let previousClasses := _previousClasses st in
  let el := _editorElem st in
  let el :=
    if truthy_text previousClasses
    then removeClasses (default "" previousClasses) el else el in
  let el :=
    if truthy_text currentClasses
    then addClasses (default "" currentClasses) el else el in
  {| _editorElem := el; _previousStyles := _previousStyles st;
     _previousClasses := currentClasses |}.

(** The subscriber of [toObservable(this.styles)]; an object is truthy, so
    only [null] and [undefined], which are [None], skip a loop.  The value
    read back from the input inside the loop is the value the subscriber
    received. *)
Definition styles_subscriber (styles : option (gmap string JsValue))
    (st : Styled) : Styled :=
  let currentStyling := styles in
  let previousStyling := _previousStyles st in
  let el := _editorElem st in
  let el :=
    match previousStyling with
    | Some previous => foldl (fun el key => removeStyle key el) el (keys previous)
    | None => el
    end in
  let el :=
    match currentStyling with
    | Some current =>
        foldl (fun el key => setStyle key (get current key) el) el (keys current)
    | None => el
    end in
  {| _editorElem := el; _previousStyles := currentStyling;
     _previousClasses := _previousClasses st |}.

(** The styling part of the loader's subscriber: the element is found, the
    styles and the classes of the inputs are applied and remembered if they
    are truthy. *)
Definition onQuillLoaded (styles : option (gmap string JsValue))
    (classes : option string) (el : Element) (st : Styled) : Styled :=
  let st :=
    {| _editorElem := el; _previousStyles := _previousStyles st;
       _previousClasses := _previousClasses st |} in
  let st :=
    match styles with
    | Some s =>
        {| _editorElem :=
             foldl (fun el key => setStyle key (get s key) el)
                   (_editorElem st) (keys s);
           _previousStyles := styles;
           _previousClasses := _previousClasses st |}
    | None => st
    end in
  if truthy_text classes then
    {| _editorElem := addClasses (default "" classes) (_editorElem st);
       _previousStyles := _previousStyles st;
       _previousClasses := classes |}
  else st.

End Styling.

(** * The read path of the editor *)

(** [valueGetter], [textChangeHandler] and [editorChangeHandler].  They read
    the instance and send values out; what they send is returned as a list,
    oldest first. *)
Module ReadPath.

(** What the read path needs beside the fields of [QuillEditorBase.Editor]. *)
Record Outputs : Type := {
  defaultEmptyValue : JsValue;
  (** whether [registerOnChange] has stored a callback *)
  _onModelChange : bool;
  onContentChanged_observed : bool;
  onEditorChanged_observed : bool
}.

Record ContentChange : Type := {
  content : Delta;
  delta : JsValue;
  html : JsValue;
  oldDelta : JsValue;
  source : string;
  text : string
}.

Inductive Sent : Type :=
| ModelChange (modelValue : JsValue)
| OnContentChanged (change : ContentChange)
| OnEditorChangedText (change : ContentChange)
| OnEditorChangedSelection (oldRange range : JsValue) (source : string).

Definition is_modelChange (s : Sent) : bool :=
  match s with ModelChange _ => true | _ => false end.

Definition is_contentChanged (s : Sent) : bool :=
  match s with OnContentChanged _ => true | _ => false end.

Definition _isEmptyValue (html : string) : bool :=
  String.eqb html "<p></p>" || String.eqb html "<div></div>" ||
  String.eqb html "<p><br></p>" || String.eqb html "<div><br></div>".

Section Methods.
Variable rt : Runtime.
(** [quill.getSemanticHTML()] *)
Variable getSemanticHTML : Quill -> string.

(** [let html = getSemanticHTML(); if (_isEmptyValue(html)) html =
    defaultEmptyValue()] *)
Definition html_or_default (o : Outputs) (q : Quill) : JsValue :=
  let html := getSemanticHTML q in
  if _isEmptyValue html then defaultEmptyValue o else JsString html.

(** The default of the [valueGetter] input.  [JSON.stringify] does not throw
    on a value of the model, so the [catch] branch, which would return the
    text, is never taken. *)
Definition valueGetter (st : QuillEditorBase.Editor) (o : Outputs)
    (quillEditor : Quill) : JsValue :=
  let html := html_or_default o quillEditor in
  match QuillEditorBase.resolved_format st with
  | FmtText => JsString (getText quillEditor)
  | FmtObject => delta_value (getContents quillEditor)
  | FmtJson =>
      match JSON_stringify rt (delta_value (getContents quillEditor)) with
      | Some s => JsString s
      | None => JsUndefined
      end
  | FmtHtml => html
  end.

Definition shouldTriggerOnModelChange (source : string)
    (st : QuillEditorBase.Editor) (o : Outputs) : bool :=
  let trackChanges :=
    or_else (QuillEditorBase.trackChanges (QuillEditorBase.inputs st))
            (cfg_trackChanges (QuillEditorBase.config st)) in
  (String.eqb source "user" || QuillEditorBase.track_all trackChanges) &&
  _onModelChange o.

Definition content_change (delta oldDelta : JsValue) (source : string)
    (o : Outputs) (q : Quill) : ContentChange :=
  {| content := getContents q; delta := delta; html := html_or_default o q;
     oldDelta := oldDelta; source := source; text := getText q |}.

Definition textChangeHandler (delta oldDelta : JsValue) (source : string)
    (st : QuillEditorBase.Editor) (o : Outputs) (q : Quill) : list Sent :=
  let shouldTriggerOnModelChange := shouldTriggerOnModelChange source st o in
  if negb (onContentChanged_observed o) && negb shouldTriggerOnModelChange
  then []
  else
    (if shouldTriggerOnModelChange then [ModelChange (valueGetter st o q)]
     else []) ++
    [OnContentChanged (content_change delta oldDelta source o q)].

(** The value that a form expects under a format, read off the payload of
    a content change. *)
Definition model_value_of (format : Format) (change : ContentChange) : JsValue :=
  match format with
  | FmtHtml => html change
  | FmtText => JsString (text change)
  | FmtObject => delta_value (content change)
  | FmtJson =>
      match JSON_stringify rt (delta_value (content change)) with
      | Some s => JsString s
      | None => JsUndefined
      end
  end.

Definition is_text_change (e : EventName) : bool :=
  match e with TextChange => true | _ => false end.

Definition editorChangeHandler (event : EventName) (current old : JsValue)
    (source : string) (o : Outputs) (q : Quill) : list Sent :=
  if negb (onEditorChanged_observed o) then []
  else if is_text_change event
  then [OnEditorChangedText (content_change current old source o q)]
  else [OnEditorChangedSelection old current source].

End Methods.

End ReadPath.

(** * The life of a read-only binder *)

Module ViewLife.

Inductive Action : Type :=
| ContentChanged (content : JsValue)
| QuillLoaded.

Section Steps.
Variable rt : Runtime.

(** The engine loader emits once. *)
Definition step (a : Action) (st : QuillViewComponent.View)
    : Result QuillViewComponent.View :=
  match a with
  | ContentChanged v => QuillViewComponent.change_content rt v st
  | QuillLoaded =>
      match QuillViewComponent.quillEditor st with
      | None => QuillViewComponent.onQuillLoaded rt st
      | Some _ => Ok st
      end
  end.

Inductive reachable : QuillViewComponent.View -> Prop :=
| reachable_created i c :
    reachable {| QuillViewComponent.inputs := i;
                 QuillViewComponent.config := c;
                 QuillViewComponent.quillEditor := None |}
| reachable_step a st st' :
    reachable st -> step a st = Ok st' -> reachable st'.

End Steps.

End ViewLife.

(** * The HTML-only binder: [QuillViewHTMLComponent] *)

Module QuillViewHTMLComponent.

(** A [SafeHtml]: the string as it is, left to the sanitising binding, or
    the result of [bypassSecurityTrustHtml]. *)
Inductive SafeHtml : Type :=
| Plain (html : string)
| Trusted (html : string).

Record ViewHTML : Type := {
  innerHTML : SafeHtml;
  themeClass : string
}.

Definition created : ViewHTML :=
  {| innerHTML := Plain ""; themeClass := "ql-snow" |}.

Definition truthy_text (s : option string) : bool :=
  match s with Some s => negb (String.eqb s "") | None => false end.

(** The subscriber of [toObservable(this.theme)]. *)
Definition theme_subscriber (config : QuillConfig) (newTheme : option string)
    (st : ViewHTML) : ViewHTML :=
  if truthy_text newTheme then
    let theme :=
      if truthy_text newTheme then default "" newTheme
      else if truthy_text (cfg_theme config) then default "" (cfg_theme config)
      else "snow" in
    {| innerHTML := innerHTML st;
       themeClass := "ql-" +:+ theme +:+ " ngx-quill-view-html" |}
  else
    let theme :=
      if truthy_text (cfg_theme config) then default "" (cfg_theme config)
      else "snow" in
    {| innerHTML := innerHTML st;
       themeClass := "ql-" +:+ theme +:+ " ngx-quill-view-html" |}.

(** The subscriber of [combineLatest([content, sanitize])]. *)
Definition content_subscriber (config : QuillConfig) (content : string)
    (shouldSanitize : option bool) (st : ViewHTML) : ViewHTML :=
  let sanitize := resolve_sanitize shouldSanitize (cfg_sanitize config) in
  let innerHTML := if sanitize then Plain content else Trusted content in
  {| innerHTML := innerHTML; themeClass := themeClass st |}.

End QuillViewHTMLComponent.

(** * More states to evaluate the model on *)

Module MoreSamples.

(** The inputs at their defaults, except for the format and with the
    comparison of values switched on. *)
Definition comparing_inputs (format : option Format) : QuillEditorBase.Inputs :=
  {| QuillEditorBase.format := format;
     QuillEditorBase.theme := None;
     QuillEditorBase.readOnly := Some false;
     QuillEditorBase.placeholder := None;
     QuillEditorBase.maxLength := None;
     QuillEditorBase.minLength := None;
     QuillEditorBase.required := false;
     QuillEditorBase.sanitize := None;
     QuillEditorBase.trackChanges := None;
     QuillEditorBase.trimOnValidation := false;
     QuillEditorBase.compareValues := true;
     QuillEditorBase.filterNull := false;
     QuillEditorBase.debounceTime := None |}.

Definition outputs : ReadPath.Outputs :=
  {| ReadPath.defaultEmptyValue := JsNull;
     ReadPath._onModelChange := true;
     ReadPath.onContentChanged_observed := true;
     ReadPath.onEditorChanged_observed := true |}.

Definition getSemanticHTML (q : Quill) : string := "<p>Hallo</p>".

End MoreSamples.

(** * Properties *)

Module E := QuillEditorBase.
Module V := QuillViewComponent.

Ltac unfold_bind := unfold mbind, Result_bind, bind in *.

(** ** Calls on an instance *)

Section Calls.
Variable rt : Runtime.

Lemma calls_invoke (c : Call) (q : Quill) :
  calls (invoke rt c q) = calls q ++ [c].
Proof. reflexivity. Qed.

Lemma calls_invoke_all (cs : list Call) (q : Quill) :
  calls (invoke_all rt cs q) = calls q ++ cs.
Proof.
  revert q. induction cs as [|c cs IH]; intros q; simpl.
  - by rewrite app_nil_r.
  - rewrite IH, calls_invoke, <- app_assoc. reflexivity.
Qed.

Lemma invoke_all_app (a b : list Call) (q : Quill) :
  invoke_all rt (a ++ b) q = invoke_all rt b (invoke_all rt a q).
Proof. unfold invoke_all. apply foldl_app. Qed.

End Calls.

(** ** The format adapter *)

Section FormatAdapter.
Variable rt : Runtime.

Lemma try_catch_ok {A} (r h : Result A) (a : A) :
  r = Ok a -> try_catch r h = Ok a.
Proof. intros ->. reflexivity. Qed.

Lemma try_catch_throw {A} (r h : Result A) (e : JsError) :
  r = Throw e -> try_catch r h = h.
Proof. intros ->. reflexivity. Qed.

(** The editor's default [valueSetter] never throws. *)
Lemma valueSetter_total (st : E.Editor) (q : Quill) (v : JsValue) :
  exists nv, E.valueSetter rt st q v = Ok nv.
Proof.
  unfold E.valueSetter.
  destruct (E.resolved_format st); eauto.
  destruct (JSON_parse rt v); simpl; eauto.
Qed.



End FormatAdapter.


(** ** The external write path of the editor *)

Section WritePath.
Variable rt : Runtime.

Lemma call_quillEditor (c : Call) (st : E.Editor) (q : Quill) :
  E._quillEditor st = Some q ->
  E._quillEditor (E.call rt c st) = Some (invoke rt c q).
Proof. intros Hq. unfold E.call. simpl. rewrite Hq. reflexivity. Qed.

(** C8: with the filter-null option enabled, [writeValue(null)] returns at
    once: the component, its cached content and its engine instance are
    exactly what they were. *)
Theorem writeValue_filterNull_ignored (st : E.Editor) :
  E.filterNull (E.inputs st) = true ->
  E.writeValue rt JsNull st = Ok st.
Proof.
  intros Hf. unfold E.writeValue, E.writeValue_run. rewrite Hf. reflexivity.
Qed.

(** C2: while the instance exists, writing a falsy value that is neither
    filtered nor skipped by the comparison ends in [setText('')], whatever
    the format and whatever the instance held before. *)
Theorem writeValue_falsy_clears (st : E.Editor) (q : Quill) (v : JsValue) :
  E._quillEditor st = Some q ->
  truthy v = false ->
  E.filterNull (E.inputs st) = false ->
  (E.compareValues (E.inputs st) = false \/
   forall nv, E.valueSetter rt st q v = Ok nv ->
     JSON_stringify rt (delta_value (getContents q)) <> JSON_stringify rt nv) ->
  exists st',
    E.writeValue rt v st = Ok st' /\
    E._quillEditor st' = Some (invoke rt (SetText (JsString "") None) q) /\
    E._content st' = v.
Proof.
  intros Hq Hv Hf Hcmp.
  exists (E.call rt (SetText (JsString "") None) (E.set_content v st)).
  split; [|split; [apply call_quillEditor; exact Hq | reflexivity]].
  unfold E.writeValue, E.writeValue_run. rewrite Hf. simpl. rewrite Hq.
  destruct (valueSetter_total rt st q v) as [nv Hnv].
  change (E.valueSetter rt (E.set_content v st) q v)
    with (E.valueSetter rt st q v).
  rewrite Hnv. rewrite Hv.
  assert (Hw : E.write rt (SetText (JsString "") None) (E.set_content v st)
               = returned (E.call rt (SetText (JsString "") None)
                             (E.set_content v st))).
  { unfold E.write. simpl. rewrite Hq. reflexivity. }
  destruct Hcmp as [Hc | Hne].
  - rewrite Hc. simpl. rewrite Hw. reflexivity.
  - rewrite bool_decide_eq_false_2 by (apply Hne; exact Hnv).
    rewrite andb_false_r. rewrite Hw. reflexivity.
Qed.

End WritePath.

(** At an editor that waits for the engine with [Hallo] cached. *)
Lemma writeValue_filterNull_ignored_witness :
  E.writeValue Sample.runtime JsNull
    (Sample.waiting (Sample.editor_inputs None true false None None None)
       (JsString "Hallo"))
  = Ok (Sample.waiting (Sample.editor_inputs None true false None None None)
          (JsString "Hallo")).
Proof.
  apply (writeValue_filterNull_ignored Sample.runtime). reflexivity.
Defined.

(** At a loaded editor showing [Hallo], for the empty string. *)
Lemma writeValue_falsy_clears_witness :
  exists st',
    E.writeValue Sample.runtime (JsString "")
      (Sample.ready (Sample.editor_inputs None false false None None None)
         (JsString "Hallo")) = Ok st' /\
    E._quillEditor st' =
      Some (invoke Sample.runtime (SetText (JsString "") None)
              (Sample.ready_quill
                 (Sample.editor_inputs None false false None None None)
                 (JsString "Hallo"))) /\
    E._content st' = JsString "".
Proof.
  apply (writeValue_falsy_clears Sample.runtime).
  - vm_compute. reflexivity.
  - reflexivity.
  - reflexivity.
  - left. reflexivity.
Defined.

Example writeValue_falsy_clears_calls :
  calls <$> (E._quillEditor
     (Sample.unwrap
        (E.writeValue Sample.runtime JsNull
           (Sample.ready (Sample.editor_inputs None false false None None None)
              (JsString "Hallo")))
        (Sample.waiting (Sample.editor_inputs None false false None None None)
           JsNull)))
  = Some [SetContents (JsObject [("ops", JsArray [])]) (Some "silent");
          HistoryClear; Enable None;
          On SelectionChange; On TextChange; On EditorChange;
          SetText (JsString "") None].
Proof. vm_compute. reflexivity. Qed.

(** ** The disabled state *)

Section DisabledState.
Variable rt : Runtime.

(** C6: while the instance exists, [setDisabledState(true)] calls
    [disable()] and sets the host attribute [disabled];
    [setDisabledState(false)] removes the attribute and calls [enable()]
    unless the [readOnly] input is set.  Hence the attribute is present
    after a call exactly when that call disabled, and disabling followed by
    enabling, with [readOnly] not set, ends with [enable()] and without the
    attribute. *)
Theorem setDisabledState_contract (st : E.Editor) (q : Quill) :
  E._quillEditor st = Some q ->
  (E._quillEditor (E.setDisabledState rt (Some true) st)
     = Some (invoke rt Disable q) /\
   E.hostAttributes (E.setDisabledState rt (Some true) st)
     = <["disabled" := "disabled"]> (E.hostAttributes st)) /\
  (E._quillEditor (E.setDisabledState rt (Some false) st)
     = Some (if truthy_flag (E.readOnly (E.inputs st)) then q
             else invoke rt (Enable None) q) /\
   E.hostAttributes (E.setDisabledState rt (Some false) st)
     = delete "disabled" (E.hostAttributes st)) /\
  (forall b : bool,
     is_Some (E.hostAttributes (E.setDisabledState rt (Some b) st) !! "disabled")
     <-> b = true) /\
  (truthy_flag (E.readOnly (E.inputs st)) = false ->
   E._quillEditor
     (E.setDisabledState rt (Some false) (E.setDisabledState rt (Some true) st))
     = Some (invoke rt (Enable None) (invoke rt Disable q)) /\
   E.hostAttributes
     (E.setDisabledState rt (Some false) (E.setDisabledState rt (Some true) st))
     !! "disabled" = None).
Proof.
  intros Hq.
  assert (Hon : E.setDisabledState rt (Some true) st
                = E.set_hostAttributes
                    (<["disabled" := "disabled"]> (E.hostAttributes st))
                    (E.call rt Disable (E.set_disabled true st))).
  { unfold E.setDisabledState. simpl. rewrite Hq. reflexivity. }
  assert (Hoff : forall st0 q0, E._quillEditor st0 = Some q0 ->
            E.setDisabledState rt (Some false) st0
            = E.set_hostAttributes (delete "disabled" (E.hostAttributes st0))
                (if negb (truthy_flag (E.readOnly (E.inputs st0)))
                 then E.call rt (Enable None) (E.set_disabled false st0)
                 else E.set_disabled false st0)).
  { intros st0 q0 Hq0. unfold E.setDisabledState. simpl. rewrite Hq0.
    destruct (truthy_flag (E.readOnly (E.inputs st0))); reflexivity. }
  assert (Hq1 : E._quillEditor (E.setDisabledState rt (Some true) st)
                = Some (invoke rt Disable q)).
  { rewrite Hon. simpl. rewrite Hq. reflexivity. }
  split; [|split; [|split]].
  - split; [exact Hq1 | rewrite Hon; reflexivity].
  - rewrite (Hoff st q Hq).
    destruct (truthy_flag (E.readOnly (E.inputs st))); simpl; rewrite ?Hq;
      split; reflexivity.
  - intros b. split.
    + destruct b; [reflexivity|].
      rewrite (Hoff st q Hq). intros [x Hx]. revert Hx.
      destruct (truthy_flag (E.readOnly (E.inputs st))); simpl;
        rewrite lookup_delete_eq; discriminate.
    + intros ->. rewrite Hon. simpl. rewrite lookup_insert_eq. eauto.
  - intros Hro. rewrite (Hoff _ _ Hq1). rewrite Hon. simpl. rewrite Hro. simpl.
    rewrite Hq. split; [reflexivity | apply lookup_delete_eq].
Qed.

End DisabledState.

(** At a loaded editor whose [readOnly] input is [false]. *)
Lemma setDisabledState_contract_witness :
  E._quillEditor
    (E.setDisabledState Sample.runtime (Some false)
       (E.setDisabledState Sample.runtime (Some true)
          (Sample.ready (Sample.editor_inputs None false false None None None)
             (JsString "Hallo"))))
  = Some (invoke Sample.runtime (Enable None)
            (invoke Sample.runtime Disable
               (Sample.ready_quill
                  (Sample.editor_inputs None false false None None None)
                  (JsString "Hallo")))).
Proof.
  assert (Hq : E._quillEditor
                 (Sample.ready
                    (Sample.editor_inputs None false false None None None)
                    (JsString "Hallo"))
               = Some (Sample.ready_quill
                         (Sample.editor_inputs None false false None None None)
                         (JsString "Hallo")))
    by (vm_compute; reflexivity).
  destruct (setDisabledState_contract Sample.runtime _ _ Hq)
    as (_ & _ & _ & Hcycle).
  apply Hcycle. reflexivity.
Defined.

(** ** Validation *)

Section Validation.

Lemma textLength_spec (t : bool) (text : string) :
  E.textLength t text = E.spec_effective_length t text.
Proof.
  unfold E.textLength, E.spec_effective_length.
  destruct t; [reflexivity|].
  destruct (String.eqb_spec text LF) as [-> | Hne]; [reflexivity|].
  destruct (Nat.eqb_spec (String.length text) 1) as [H1 | H1]; simpl.
  - destruct (String.length (trim text) =? 0)%nat; lia.
  - reflexivity.
Qed.

Lemma is_empty_insert_spec (o : Op) :
  E.is_empty_insert o = true <->
  insert o = Some (InsertText "") \/ insert o = Some (InsertText LF).
Proof.
  unfold E.is_empty_insert.
  destruct (insert o) as [[s | e] |]; simpl.
  - destruct (String.eqb_spec s LF) as [-> | Hlf]; simpl.
    + split; [right; reflexivity | reflexivity].
    + destruct (String.eqb_spec s "") as [-> | He].
      * split; [left; reflexivity | reflexivity].
      * split; [discriminate | intros [H | H]; congruence].
  - split; [discriminate | intros [H | H]; discriminate].
  - split; [discriminate | intros [H | H]; discriminate].
Qed.

Lemma onlyEmptyOperation_spec (l : list Op) :
  E.onlyEmptyOperation l = true <->
  exists o, l = [o] /\
    (insert o = Some (InsertText "") \/ insert o = Some (InsertText LF)).
Proof.
  unfold E.onlyEmptyOperation.
  destruct l as [|o [|o' l]].
  - split; [discriminate | intros (o & H & _); discriminate].
  - rewrite is_empty_insert_spec. split.
    + intros H. exists o. split; [reflexivity | exact H].
    + intros (o' & Heq & H). injection Heq as ->. exact H.
  - split; [discriminate | intros (x & H & _); discriminate].
Qed.

(** C4: while the instance exists, the result of [validate()] carries
    [requiredError {empty: true}], and so is not [null], exactly when
    [required] is set, the effective text length is [0] and the operation
    list is one operation inserting [''] or a newline.  The minimum length
    plays no part, so this covers [required = true] with [minLength = 0]. *)
Theorem validate_requiredError (st : E.Editor) (q : Quill) :
  E._quillEditor st = Some q ->
  (exists err, E.validate st = Some err /\ E.requiredError err = Some true)
  <->
  (E.required (E.inputs st) = true /\
   E.textLength (E.trimOnValidation (E.inputs st)) (getText q) = 0 /\
   exists o, ops (getContents q) = [o] /\
     (insert o = Some (InsertText "") \/ insert o = Some (InsertText LF))).
Proof.
  intros Hq. rewrite <- onlyEmptyOperation_spec.
  unfold E.validate. rewrite Hq. cbv zeta.
  set (n := E.textLength _ _).
  set (tooShort := truthy_num _ && negb (n =? 0) && (n <? _)).
  set (tooLong := truthy_num _ && (_ <? n)).
  destruct (E.required (E.inputs st)), (Z.eqb_spec n 0) as [Hn | Hn],
    (E.onlyEmptyOperation (ops (getContents q))); simpl;
    try (split; [intros (err & Herr & Hreq);
                 destruct (negb tooShort && negb tooLong);
                 [discriminate | injection Herr as <-; discriminate]
                | intros (H1 & H2 & H3); congruence ]).
  rewrite !andb_false_r. split; [auto | eauto].
Qed.

(** C5: while the instance exists, [validate()] measures the text as the
    specification says (trimmed length with trimming, otherwise raw length
    minus one, a lone newline counting as [0]), and the minimum and maximum
    errors are decided by, and report, that length. *)
Theorem validate_effective_length (st : E.Editor) (q : Quill) :
  E._quillEditor st = Some q ->
  E.textLength (E.trimOnValidation (E.inputs st)) (getText q)
    = E.spec_effective_length (E.trimOnValidation (E.inputs st)) (getText q) /\
  (getText q = LF ->
   E.spec_effective_length (E.trimOnValidation (E.inputs st)) (getText q) = 0) /\
  (forall given m,
     (exists err, E.validate st = Some err /\
                  E.minLengthError err = Some (given, m))
     <->
     (E.minLength (E.inputs st) = Some m /\ m <> 0 /\
      given = E.spec_effective_length (E.trimOnValidation (E.inputs st))
                (getText q) /\
      given <> 0 /\ given < m)) /\
  (forall given m,
     (exists err, E.validate st = Some err /\
                  E.maxLengthError err = Some (given, m))
     <->
     (E.maxLength (E.inputs st) = Some m /\ m <> 0 /\
      given = E.spec_effective_length (E.trimOnValidation (E.inputs st))
                (getText q) /\
      m < given)).
Proof.
  intros Hq. split; [apply textLength_spec|]. split.
  { intros ->. destruct (E.trimOnValidation (E.inputs st)); reflexivity. }
  unfold E.validate. rewrite Hq. cbv zeta. rewrite textLength_spec.
  set (n := E.spec_effective_length _ _).
  set (empty := E.required _ && (n =? 0) && _).
  split; intros given m.
  - destruct (E.minLength (E.inputs st)) as [k|]; simpl.
    + destruct (Z.eqb_spec k 0) as [Hk | Hk], (Z.eqb_spec n 0) as [Hn | Hn],
        (Z.ltb_spec n k) as [Hlt | Hlt]; simpl;
        try (split;
             [intros (err & Herr & Hmin);
              match type of Herr with
              | (if ?c then _ else _) = _ =>
                  destruct c; [discriminate | injection Herr as <-; discriminate]
              end
             | intros (Hm & H0 & Hg & Hg0 & Hgm); injection Hm as ->; lia]).
      split.
      * intros (err & Herr & Hmin). injection Herr as <-.
        injection Hmin as <- <-. repeat split; auto.
      * intros (Hm & H0 & Hg & Hg0 & Hgm). injection Hm as ->. subst given.
        eexists. split; reflexivity.
    + split.
      * intros (err & Herr & Hmin).
        match type of Herr with
        | (if ?c then _ else _) = _ =>
            destruct c; [discriminate | injection Herr as <-; discriminate]
        end.
      * intros (Hm & _). discriminate.
  - destruct (E.maxLength (E.inputs st)) as [k|]; simpl.
    + destruct (Z.eqb_spec k 0) as [Hk | Hk], (Z.ltb_spec k n) as [Hlt | Hlt];
        simpl;
        try (split;
             [intros (err & Herr & Hmax);
              match type of Herr with
              | (if ?c then _ else _) = _ =>
                  destruct c; [discriminate | injection Herr as <-; discriminate]
              end
             | intros (Hm & H0 & Hg & Hgm); injection Hm as ->; lia]).
      rewrite andb_false_r. simpl. split.
      * intros (err & Herr & Hmax). injection Herr as <-.
        injection Hmax as <- <-. repeat split; auto.
      * intros (Hm & H0 & Hg & Hgm). injection Hm as ->. subst given.
        eexists. split; reflexivity.
    + rewrite andb_true_r. split.
      * intros (err & Herr & Hmax).
        match type of Herr with
        | (if ?c then _ else _) = _ =>
            destruct c; [discriminate | injection Herr as <-; discriminate]
        end.
      * intros (Hm & _). discriminate.
Qed.

End Validation.

(** At a required, freshly loaded editor with [minLength = 0]. *)
Lemma validate_requiredError_witness :
  exists err,
    E.validate
      (Sample.ready (Sample.editor_inputs None false true (Some 0) None None)
         JsUndefined) = Some err /\
    E.requiredError err = Some true.
Proof.
  assert (Hq : E._quillEditor
                 (Sample.ready
                    (Sample.editor_inputs None false true (Some 0) None None)
                    JsUndefined)
               = Some (Sample.ready_quill
                         (Sample.editor_inputs None false true (Some 0) None None)
                         JsUndefined))
    by (vm_compute; reflexivity).
  apply (proj2 (validate_requiredError _ _ Hq)).
  split; [reflexivity|]. split; [vm_compute; reflexivity|].
  eexists. split; [vm_compute; reflexivity | right; reflexivity].
Defined.

(** At six characters, with a minimum of 3 and a maximum of 5. *)
Lemma validate_effective_length_witness :
  exists err,
    E.validate
      (Sample.ready
         (Sample.editor_inputs (Some FmtText) false false (Some 3) (Some 5) None)
         (JsString "123456")) = Some err /\
    E.maxLengthError err = Some (6, 5).
Proof.
  assert (Hq : E._quillEditor
                 (Sample.ready
                    (Sample.editor_inputs (Some FmtText) false false
                       (Some 3) (Some 5) None)
                    (JsString "123456"))
               = Some (Sample.ready_quill
                         (Sample.editor_inputs (Some FmtText) false false
                            (Some 3) (Some 5) None)
                         (JsString "123456")))
    by (vm_compute; reflexivity).
  destruct (validate_effective_length _ _ Hq) as (_ & _ & _ & Hmax).
  apply (Hmax 6 5).
  split; [reflexivity|]. split; [lia|]. split; [vm_compute; reflexivity | lia].
Defined.

(** The example of the test suite: with a minimum of 3 and a maximum of 5,
    six characters are too long and four are valid. *)
Example validate_min3_max5 :
  E.validate
    (Sample.ready
       (Sample.editor_inputs (Some FmtText) false false (Some 3) (Some 5) None)
       (JsString "123456"))
  = Some {| E.minLengthError := None; E.maxLengthError := Some (6, 5);
            E.requiredError := None |} /\
  E.validate
    (Sample.ready
       (Sample.editor_inputs (Some FmtText) false false (Some 3) (Some 5) None)
       (JsString "1234"))
  = None.
Proof. split; vm_compute; reflexivity. Qed.

(** ** Selection changes *)

Section Selection.

(** C10: when the handler does not return early, it emits [onBlur] once if
    the new range is [null] and not otherwise, [onFocus] once if the new
    range is not [null] while the old one is and not otherwise, and
    [onSelectionChanged] once in every case; [onBlur] and [onFocus] never
    come together. *)
Theorem selectionChangeHandler_emissions (st : E.Editor)
    (range oldRange : option Range.t) (source : string) :
  E.selection_suppressed range source st = false ->
  exists new,
    E.emitted (E.selectionChangeHandler range oldRange source st)
      = E.emitted st ++ new /\
    List.filter E.is_blur new
      = (if isSome range then [] else [E.OnBlur source]) /\
    List.filter E.is_focus new
      = (if isSome range && negb (isSome oldRange)
         then [E.OnFocus source] else []) /\
    List.filter E.is_selectionChanged new
      = [E.OnSelectionChanged oldRange range source] /\
    (List.filter E.is_blur new = [] \/ List.filter E.is_focus new = []).
Proof.
  intros Hs. unfold E.selectionChangeHandler. rewrite Hs.
  destruct range as [r|], oldRange as [o|],
    (E.shouldTriggerOnModelTouched _ source st); simpl;
    rewrite <- ?app_assoc; eexists; (split; [reflexivity|]); simpl; auto.
Qed.

End Selection.

(** At the loss of the selection by the user. *)
Lemma selectionChangeHandler_emissions_witness :
  exists new,
    E.emitted
      (E.selectionChangeHandler None
         (Some {| Range.index := 0; Range.length := 0 |}) "user"
         (Sample.ready (Sample.editor_inputs None false false None None None)
            (JsString "Hallo")))
      = E.emitted
          (Sample.ready (Sample.editor_inputs None false false None None None)
             (JsString "Hallo")) ++ new /\
    List.filter E.is_blur new = [E.OnBlur "user"] /\
    List.filter E.is_focus new = [] /\
    List.filter E.is_selectionChanged new
      = [E.OnSelectionChanged
           (Some {| Range.index := 0; Range.length := 0 |}) None "user"] /\
    (List.filter E.is_blur new = [] \/ List.filter E.is_focus new = []).
Proof.
  apply (selectionChangeHandler_emissions
           (Sample.ready (Sample.editor_inputs None false false None None None)
              (JsString "Hallo"))
           None (Some {| Range.index := 0; Range.length := 0 |}) "user").
  vm_compute. reflexivity.
Defined.

(** ** Listener registration *)

Section Registration.
Variable rt : Runtime.

Lemma invoke_all_nil_fmap (o : option Quill) : invoke_all rt [] <$> o = o.
Proof. destruct o; reflexivity. Qed.

Lemma subscription_eta (s : E.Subscription) :
  {| E.closed := E.closed s; E.listeners := E.listeners s |} = s.
Proof. destruct s; reflexivity. Qed.

(** [_dispose] in one step: the current subscription is closed, its
    listeners are detached from the instance, the field is cleared. *)
Lemma dispose_eq (st : E.Editor) :
  E._dispose rt st
  = E.set_subscriptions (E.current_closed st) None
      (E.set_quillEditor
         (invoke_all rt (E.detached st) <$> E._quillEditor st) st).
Proof.
  unfold E._dispose, E.unsubscribe, E.current_closed, E.detached.
  destruct (E._eventsSubscription st) as [i|] eqn:Hcur.
  - destruct (E.subscriptions st !! i) as [s|] eqn:Hs.
    + destruct (E.closed s) eqn:Hc.
      * rewrite invoke_all_nil_fmap.
        rewrite <- Hc, subscription_eta, (list_insert_id _ _ _ Hs).
        destruct st; reflexivity.
      * destruct st; reflexivity.
    + rewrite invoke_all_nil_fmap. destruct st; reflexivity.
  - rewrite invoke_all_nil_fmap. destruct st; reflexivity.
Qed.

Lemma current_closed_length (st : E.Editor) :
  length (E.current_closed st) = length (E.subscriptions st).
Proof.
  unfold E.current_closed.
  destruct (E._eventsSubscription st) as [i|]; [|reflexivity].
  destruct (E.subscriptions st !! i); [apply length_insert | reflexivity].
Qed.

(** [_addQuillEventListeners] in one step, for a component with an
    instance: it returns. *)
Lemma addQuillEventListeners_run_eq (st : E.Editor) (q : Quill) :
  E._quillEditor st = Some q ->
  E._addQuillEventListeners_run rt st
  = returned
      (E.set_quillEditor
         (Some (invoke_all rt
                  (E.detached st ++
                   [On SelectionChange; On TextChange; On EditorChange]) q))
         (E.set_subscriptions
            (E.current_closed st ++
             [{| E.closed := false;
                 E.listeners := E.listeners_for (E.debounceTime (E.inputs st)) |}])
            (Some (length (E.subscriptions st))) st)).
Proof.
  intros Hq. unfold E._addQuillEventListeners_run. rewrite dispose_eq.
  cbn [E._quillEditor E.set_subscriptions E.set_quillEditor E.subscriptions
       E.inputs].
  rewrite Hq. cbn [fmap option_fmap option_map].
  rewrite current_closed_length.
  unfold invoke_all. rewrite foldl_app. reflexivity.
Qed.

Lemma addQuillEventListeners_eq (st : E.Editor) (q : Quill) :
  E._quillEditor st = Some q ->
  E._addQuillEventListeners rt st
  = Ok (E.set_quillEditor
          (Some (invoke_all rt
                   (E.detached st ++
                    [On SelectionChange; On TextChange; On EditorChange]) q))
          (E.set_subscriptions
             (E.current_closed st ++
              [{| E.closed := false;
                  E.listeners := E.listeners_for (E.debounceTime (E.inputs st)) |}])
             (Some (length (E.subscriptions st))) st)).
Proof.
  intros Hq. unfold E._addQuillEventListeners.
  rewrite (addQuillEventListeners_run_eq st q Hq). reflexivity.
Qed.

Lemma addQuillEventListeners_none (st : E.Editor) :
  E._quillEditor st = None ->
  E._addQuillEventListeners rt st = Throw TypeError.
Proof.
  intros Hq. unfold E._addQuillEventListeners, E._addQuillEventListeners_run.
  rewrite dispose_eq.
  cbn [E._quillEditor E.set_subscriptions E.set_quillEditor].
  rewrite Hq. reflexivity.
Qed.

(** Once the current subscription is closed, no subscription is open. *)
Lemma current_closed_all (st : E.Editor) :
  (forall k s, E.subscriptions st !! k = Some s -> E.closed s = false ->
               E._eventsSubscription st = Some k) ->
  Forall (fun s => E.closed s = true) (E.current_closed st).
Proof.
  intros Hinv. apply Forall_lookup_2. intros k s Hk.
  destruct (E.closed s) eqn:Hc; [reflexivity|exfalso].
  unfold E.current_closed in Hk.
  destruct (E._eventsSubscription st) as [i|] eqn:Hcur.
  - destruct (E.subscriptions st !! i) as [si|] eqn:Hsi.
    + destruct (decide (i = k)) as [-> | Hne].
      * rewrite list_lookup_insert_eq in Hk
          by (apply lookup_lt_Some in Hsi; exact Hsi).
        injection Hk as <-. discriminate.
      * rewrite list_lookup_insert_ne in Hk by exact Hne.
        specialize (Hinv k s Hk Hc). congruence.
    + specialize (Hinv k s Hk Hc). congruence.
  - specialize (Hinv k s Hk Hc). discriminate.
Qed.

Lemma filter_open_closed (l : list E.Subscription) :
  Forall (fun s => E.closed s = true) l ->
  List.filter (fun s => negb (E.closed s)) l = [].
Proof.
  induction 1 as [|s l Hs _ IH]; [reflexivity|].
  simpl. rewrite Hs. exact IH.
Qed.

Lemma current_closed_listeners (st : E.Editor) (k : nat) (s : E.Subscription) :
  E.current_closed st !! k = Some s ->
  exists s0, E.subscriptions st !! k = Some s0 /\
             E.listeners s = E.listeners s0.
Proof.
  unfold E.current_closed.
  destruct (E._eventsSubscription st) as [i|]; [|eauto].
  destruct (E.subscriptions st !! i) as [si|] eqn:Hsi; [|eauto].
  destruct (decide (i = k)) as [-> | Hne].
  - rewrite list_lookup_insert_eq by (apply lookup_lt_Some in Hsi; exact Hsi).
    intros [= <-]. eauto.
  - rewrite list_lookup_insert_ne by exact Hne. eauto.
Qed.

(** A component with an instance whose current subscription was closed and
    replaced by a fresh one satisfies the invariant. *)
Lemma rebuilt_inv (st st' : E.Editor) (d : option Z) :
  E.registration_inv st ->
  is_Some (E._quillEditor st') ->
  E.subscriptions st'
    = E.current_closed st ++
      [{| E.closed := false; E.listeners := E.listeners_for d |}] ->
  E._eventsSubscription st' = Some (length (E.subscriptions st)) ->
  E.registration_inv st'.
Proof.
  intros (Hopen & _ & Hshape) Hq Hsubs Hptr.
  pose proof (current_closed_all st Hopen) as Hall.
  pose proof (current_closed_length st) as Hlen.
  unfold E.registration_inv. rewrite Hsubs, Hptr.
  split; [|split].
  - intros k s Hk Hc. apply lookup_app_Some in Hk as [Hk | [Hge Hk]].
    + rewrite Forall_lookup in Hall. rewrite (Hall k s Hk) in Hc. discriminate.
    + apply list_lookup_singleton_Some in Hk as [Hk _]. f_equal. lia.
  - intros k [= <-]. split; [exact Hq|].
    exists {| E.closed := false; E.listeners := E.listeners_for d |}.
    split; [|reflexivity].
    rewrite lookup_app_r by lia. rewrite <- Hlen, Nat.sub_diag. reflexivity.
  - intros k s Hk. apply lookup_app_Some in Hk as [Hk | [Hge Hk]].
    + destruct (current_closed_listeners st k s Hk) as (s0 & Hs0 & ->).
      exact (Hshape k s0 Hs0).
    + apply list_lookup_singleton_Some in Hk as [_ <-]. reflexivity.
Qed.

Lemma registration_inv_untouched (st st' : E.Editor) :
  E.registration_inv st -> E.registration_untouched st st' ->
  E.registration_inv st'.
Proof.
  intros (Hopen & Hcur & Hshape) (Hsubs & Hptr & Hq).
  unfold E.registration_inv. rewrite Hsubs, Hptr.
  split; [exact Hopen|]. split; [|exact Hshape].
  intros k Hk. destruct (Hcur k Hk) as [Hi Hs]. auto.
Qed.

Lemma untouched_refl (st : E.Editor) : E.registration_untouched st st.
Proof. repeat split; auto. Qed.

Lemma call_untouched (c : Call) (st : E.Editor) :
  E.registration_untouched st (E.call rt c st).
Proof.
  repeat split. unfold E.call. simpl. intros H. apply fmap_is_Some. exact H.
Qed.

(** A write reaches the instance whether the engine takes it or not. *)
Lemma write_fst (c : Call) (st : E.Editor) :
  fst (E.write rt c st) = E.call rt c st.
Proof.
  unfold E.write. destruct (E._quillEditor st) as [q|]; [|reflexivity].
  destruct (refused rt c q); reflexivity.
Qed.

Lemma write_accepted (c : Call) (st : E.Editor) (q : Quill) :
  E._quillEditor st = Some q -> refused rt c q = false ->
  E.write rt c st = returned (E.call rt c st).
Proof. intros Hq Hr. unfold E.write. rewrite Hq, Hr. reflexivity. Qed.

Lemma write_refused (c : Call) (st : E.Editor) (q : Quill) :
  E._quillEditor st = Some q -> refused rt c q = true ->
  E.write rt c st = thrown EngineError (E.call rt c st).
Proof. intros Hq Hr. unfold E.write. rewrite Hq, Hr. reflexivity. Qed.

(** What [writeValue] leaves behind, in every branch: the component itself,
    the component with the value cached, or that with one call more on its
    instance. *)
Lemma writeValue_run_cases (v : JsValue) (st : E.Editor) :
  fst (E.writeValue_run rt v st) = st \/
  fst (E.writeValue_run rt v st) = E.set_content v st \/
  exists c, is_Some (E._quillEditor st) /\
            fst (E.writeValue_run rt v st)
            = E.call rt c (E.set_content v st).
Proof.
  unfold E.writeValue_run.
  destruct (E.filterNull (E.inputs st) && is_null v); [left; reflexivity|].
  right. cbn [E._quillEditor E.set_content].
  destruct (E._quillEditor st) as [q|] eqn:Hq; [|left; reflexivity].
  destruct (valueSetter_total rt (E.set_content v st) q v) as [nv ->].
  destruct (E.compareValues (E.inputs (E.set_content v st)) && _);
    [left; reflexivity|].
  right.
  destruct (truthy v); [destruct (E.resolved_format _)|];
    rewrite write_fst; eauto.
Qed.

Lemma writeValue_untouched (v : JsValue) (st : E.Editor) :
  E.registration_untouched st (fst (E.writeValue_run rt v st)).
Proof.
  destruct (writeValue_run_cases v st) as [-> | [-> | (c & _ & ->)]].
  - apply untouched_refl.
  - repeat split; auto.
  - repeat split. unfold E.call. simpl. intros H. apply fmap_is_Some. exact H.
Qed.

Lemma setDisabledState_quillEditor (b : option bool) (st : E.Editor) :
  E._quillEditor (E.setDisabledState rt b st)
  = invoke_all rt (E.toggle_calls b st) <$> E._quillEditor st.
Proof.
  unfold E.setDisabledState, E.toggle_calls.
  cbn [E._quillEditor E.set_disabled E.inputs].
  destruct (E._quillEditor st) as [q|] eqn:Hq.
  - destruct (default (E._disabled st) b).
    + simpl. rewrite Hq. reflexivity.
    + destruct (truthy_flag (E.readOnly (E.inputs st))); simpl; rewrite Hq;
        reflexivity.
  - simpl. rewrite Hq. reflexivity.
Qed.

Lemma setDisabledState_frame (b : option bool) (st : E.Editor) :
  E.subscriptions (E.setDisabledState rt b st) = E.subscriptions st /\
  E._eventsSubscription (E.setDisabledState rt b st) = E._eventsSubscription st /\
  E._content (E.setDisabledState rt b st) = E._content st /\
  E.inputs (E.setDisabledState rt b st) = E.inputs st.
Proof.
  unfold E.setDisabledState.
  cbn [E._quillEditor E.set_disabled E.inputs].
  destruct (E._quillEditor st), (default (E._disabled st) b),
    (truthy_flag (E.readOnly (E.inputs st))); repeat split.
Qed.

Lemma setDisabledState_untouched (b : option bool) (st : E.Editor) :
  E.registration_untouched st (E.setDisabledState rt b st).
Proof.
  destruct (setDisabledState_frame b st) as (Hs & Hp & _).
  repeat split; [exact Hs | exact Hp |].
  rewrite setDisabledState_quillEditor. intros H. apply fmap_is_Some. exact H.
Qed.

Lemma selectionChangeHandler_untouched (st : E.Editor)
    (range oldRange : option Range.t) (source : string) :
  E.registration_untouched st (E.selectionChangeHandler range oldRange source st).
Proof.
  unfold E.selectionChangeHandler.
  destruct (E.selection_suppressed range source st); [apply untouched_refl|].
  destruct range, oldRange, (E.shouldTriggerOnModelTouched _ source st);
    repeat split; auto.
Qed.

(** The end of the loader's subscriber: the disabled state is applied and
    the listeners are attached. *)
Lemma attach_spec (st st2 : E.Editor) (q2 : Quill) :
  E._quillEditor st2 = Some q2 ->
  E.subscriptions st2 = E.subscriptions st ->
  E._eventsSubscription st2 = E._eventsSubscription st ->
  E.inputs st2 = E.inputs st ->
  E._disabled st2 = E._disabled st ->
  E._content st2 = E._content st ->
  exists st',
    E._addQuillEventListeners_run rt (E.setDisabledState rt None st2)
      = returned st' /\
    E._quillEditor st'
      = Some (invoke_all rt
                (E.toggle_calls None st ++ E.detached st ++
                 [On SelectionChange; On TextChange; On EditorChange]) q2) /\
    E.subscriptions st'
      = E.current_closed st ++
        [{| E.closed := false;
            E.listeners := E.listeners_for (E.debounceTime (E.inputs st)) |}] /\
    E._eventsSubscription st' = Some (length (E.subscriptions st)) /\
    E._content st' = E._content st.
Proof.
  intros Hq Hsubs Hptr Hin Hdis Hcontent.
  destruct (setDisabledState_frame None st2) as (Fs & Fp & Fc & Fi).
  pose proof (setDisabledState_quillEditor None st2) as Fq.
  rewrite Hq in Fq. cbn [fmap option_fmap option_map] in Fq.
  assert (Htoggle : E.toggle_calls None st2 = E.toggle_calls None st).
  { unfold E.toggle_calls. rewrite Hin, Hdis. reflexivity. }
  assert (Hdet : E.detached (E.setDisabledState rt None st2) = E.detached st).
  { unfold E.detached. rewrite Fs, Fp, Hsubs, Hptr. reflexivity. }
  assert (Hcc : E.current_closed (E.setDisabledState rt None st2)
                = E.current_closed st).
  { unfold E.current_closed. rewrite Fs, Fp, Hsubs, Hptr. reflexivity. }
  eexists. split; [apply (addQuillEventListeners_run_eq _ _ Fq)|].
  cbn [E._quillEditor E.subscriptions E._eventsSubscription E._content
       E.set_quillEditor E.set_subscriptions].
  rewrite Hdet, Hcc, Fs, Fi, Fc, Hsubs, Hin, Hcontent, Htoggle.
  rewrite <- invoke_all_app. repeat split.
Qed.

(** The loader's subscriber in one step.  Either it runs to its end: the
    buffered value, if truthy, is flushed by a write that the engine takes,
    the history is cleared, the disabled state is applied and the listeners
    are attached.  Or the engine refuses the flush, and the subscriber is
    left with the instance assigned and nothing else done. *)
Lemma onQuillLoaded_run_spec (st : E.Editor) :
  (exists st' flush,
     E.onQuillLoaded_run rt st = returned st' /\
     (if truthy (E._content st) then
        exists w, flush = [w; HistoryClear] /\
          E.flushes rt st w /\
          refused rt w (new_Quill rt (E.resolved_options st)) = false
      else flush = []) /\
     E._quillEditor st'
       = Some (invoke_all rt
                 (flush ++ E.toggle_calls None st ++ E.detached st ++
                  [On SelectionChange; On TextChange; On EditorChange])
                 (new_Quill rt (E.resolved_options st))) /\
     E.subscriptions st'
       = E.current_closed st ++
         [{| E.closed := false;
             E.listeners := E.listeners_for (E.debounceTime (E.inputs st)) |}] /\
     E._eventsSubscription st' = Some (length (E.subscriptions st)) /\
     E._content st' = E._content st) \/
  (exists w,
     truthy (E._content st) = true /\
     E.flushes rt st w /\
     refused rt w (new_Quill rt (E.resolved_options st)) = true /\
     E.onQuillLoaded_run rt st
     = thrown EngineError
         (E.call rt w
            (E.set_quillEditor
               (Some (new_Quill rt (E.resolved_options st))) st))).
Proof.
  unfold E.onQuillLoaded_run, E.flushes.
  set (q0 := new_Quill rt (E.resolved_options st)).
  set (st1 := E.set_quillEditor (Some q0) st).
  change (E._content st1) with (E._content st).
  change (E.resolved_format st1) with (E.resolved_format st).
  change (E.valueSetter rt st1 q0 (E._content st))
    with (E.valueSetter rt st q0 (E._content st)).
  assert (Hq1 : E._quillEditor st1 = Some q0) by reflexivity.
  assert (Hfinish : forall flush,
    exists st',
      E._addQuillEventListeners_run rt
        (E.setDisabledState rt None
           (E.set_quillEditor (Some (invoke_all rt flush q0)) st))
        = returned st' /\
      E._quillEditor st'
        = Some (invoke_all rt
                  (flush ++ E.toggle_calls None st ++ E.detached st ++
                   [On SelectionChange; On TextChange; On EditorChange]) q0) /\
      E.subscriptions st'
        = E.current_closed st ++
          [{| E.closed := false;
              E.listeners := E.listeners_for (E.debounceTime (E.inputs st)) |}] /\
      E._eventsSubscription st' = Some (length (E.subscriptions st)) /\
      E._content st' = E._content st).
  { intros flush.
    destruct (attach_spec st
                (E.set_quillEditor (Some (invoke_all rt flush q0)) st)
                (invoke_all rt flush q0)) as (st' & H1 & H2 & H3);
      try reflexivity.
    exists st'. split; [exact H1|]. split; [|exact H3].
    rewrite H2, <- invoke_all_app. reflexivity. }
  assert (Hflush : forall w,
    match E.resolved_format st with
    | FmtText => w = SetText (E._content st) (Some "silent")
    | _ => exists nv, E.valueSetter rt st q0 (E._content st) = Ok nv /\
                      w = SetContents nv (Some "silent")
    end ->
    truthy (E._content st) = true ->
    match E.resolved_format st with
    | FmtText => E.write rt (SetText (E._content st) (Some "silent")) st1
    | _ =>
        match E.valueSetter rt st q0 (E._content st) with
        | Ok newValue => E.write rt (SetContents newValue (Some "silent")) st1
        | Throw e => thrown e st1
        end
    end = E.write rt w st1).
  { intros w Hw _. destruct (E.resolved_format st);
      try (destruct Hw as (nv & -> & ->); reflexivity).
    rewrite Hw. reflexivity. }
  destruct (truthy (E._content st)) eqn:Ht.
  - assert (Hw : exists w,
      match E.resolved_format st with
      | FmtText => w = SetText (E._content st) (Some "silent")
      | _ => exists nv, E.valueSetter rt st q0 (E._content st) = Ok nv /\
                        w = SetContents nv (Some "silent")
      end).
    { destruct (valueSetter_total rt st q0 (E._content st)) as [nv Hnv].
      destruct (E.resolved_format st); eauto. }
    destruct Hw as [w Hw]. rewrite (Hflush w Hw eq_refl).
    destruct (refused rt w q0) eqn:Hr.
    + right. exists w. split; [reflexivity|]. split; [exact Hw|].
      split; [exact Hr|].
      rewrite (write_refused w st1 q0 Hq1 Hr). reflexivity.
    + left. rewrite (write_accepted w st1 q0 Hq1 Hr).
      destruct (Hfinish [w; HistoryClear]) as (st' & H1 & H2).
      exists st', [w; HistoryClear].
      split; [exact H1|]. split; [|exact H2].
      exists w. split; [reflexivity|]. split; [exact Hw | exact Hr].
  - left. destruct (Hfinish []) as (st' & H1 & H2).
    exists st', []. split; [exact H1|]. split; [reflexivity | exact H2].
Qed.

(** The subscriber of the debounce input in one step: it returns. *)
Lemma change_debounceTime_run_spec (d : option Z) (st : E.Editor) (q : Quill) :
  E._quillEditor st = Some q ->
  E.change_debounceTime_run rt d st
  = returned
      (if truthy_num d
       then E.set_quillEditor
              (Some (invoke_all rt
                       (E.detached st ++
                        [On SelectionChange; On TextChange; On EditorChange])
                       q))
              (E.set_subscriptions
                 (E.current_closed st ++
                  [{| E.closed := false; E.listeners := E.listeners_for d |}])
                 (Some (length (E.subscriptions st)))
                 (E.set_inputs (E.with_debounceTime d (E.inputs st)) st))
       else E.set_inputs (E.with_debounceTime d (E.inputs st)) st).
Proof.
  intros Hq. unfold E.change_debounceTime_run, E.debounceTime_subscriber_run.
  cbn [E._quillEditor E.set_inputs]. rewrite Hq.
  destruct (truthy_num d); [|reflexivity].
  rewrite (addQuillEventListeners_run_eq _ q) by exact Hq. reflexivity.
Qed.

Lemma change_debounceTime_run_none (d : option Z) (st : E.Editor) :
  E._quillEditor st = None ->
  E.change_debounceTime_run rt d st
  = returned (E.set_inputs (E.with_debounceTime d (E.inputs st)) st).
Proof.
  intros Hq. unfold E.change_debounceTime_run, E.debounceTime_subscriber_run.
  cbn [E._quillEditor E.set_inputs]. rewrite Hq. reflexivity.
Qed.

Lemma reachable_inv (st : E.Editor) :
  E.reachable rt st -> E.registration_inv st.
Proof.
  induction 1 as [i c o | a st Hr IH].
  - unfold E.registration_inv. simpl. split; [|split].
    + intros k s Hk. rewrite lookup_nil in Hk. discriminate.
    + intros k Hk. discriminate.
    + intros k s Hk. rewrite lookup_nil in Hk. discriminate.
  - destruct a as [| v | b | d | | range oldRange source]; simpl.
    + apply (registration_inv_untouched st); [exact IH|]. repeat split; auto.
    + apply (registration_inv_untouched st); [exact IH|].
      apply writeValue_untouched.
    + apply (registration_inv_untouched st); [exact IH|].
      apply setDisabledState_untouched.
    + destruct (E._quillEditor st) as [q|] eqn:Hq.
      * rewrite (change_debounceTime_run_spec d st q Hq). simpl.
        destruct (truthy_num d).
        -- apply (rebuilt_inv st _ d IH); [simpl; eauto | reflexivity..].
        -- apply (registration_inv_untouched st); [exact IH|].
           repeat split; auto.
      * rewrite (change_debounceTime_run_none d st Hq). simpl.
        apply (registration_inv_untouched st); [exact IH|]. repeat split; auto.
    + destruct (E._quillEditor st) as [q|] eqn:Hq; [exact IH|].
      destruct (onQuillLoaded_run_spec st)
        as [(st2 & flush & -> & _ & Hq2 & Hsubs & Hptr & _)
           | (w & _ & _ & _ & ->)]; simpl.
      * apply (rebuilt_inv st st2 (E.debounceTime (E.inputs st)) IH);
          [rewrite Hq2; eauto | assumption..].
      * apply (registration_inv_untouched st); [exact IH|].
        repeat split. simpl. eauto.
    + destruct (E._quillEditor st) as [q|] eqn:Hq; simpl; [|exact IH].
      apply (registration_inv_untouched st); [exact IH|].
      apply selectionChangeHandler_untouched.
Qed.

(** Under the invariant one registration set is alive if the field
    [_eventsSubscription] is set, and none otherwise. *)
Lemma registration_inv_alive (st : E.Editor) :
  E.registration_inv st ->
  E.alive st = if isSome (E._eventsSubscription st) then 1%nat else 0%nat.
Proof.
  intros (Hopen & Hcur & _). unfold E.alive.
  destruct (E._eventsSubscription st) as [k|] eqn:Hk; simpl.
  - destruct (Hcur k eq_refl) as (_ & s & Hs & Hc).
    rewrite <- (take_drop_middle _ _ _ Hs).
    rewrite List.filter_app. simpl. rewrite Hc. simpl.
    rewrite !filter_open_closed; [reflexivity | |].
    + apply Forall_lookup_2. intros j x Hj.
      destruct (E.closed x) eqn:Hx; [reflexivity|exfalso].
      rewrite lookup_drop in Hj. specialize (Hopen _ _ Hj Hx).
      injection Hopen as Hopen. lia.
    + apply Forall_lookup_2. intros j x Hj.
      destruct (E.closed x) eqn:Hx; [reflexivity|exfalso].
      apply lookup_take_Some in Hj as [Hj Hlt]. specialize (Hopen _ _ Hj Hx).
      injection Hopen as Hopen. lia.
  - rewrite filter_open_closed; [reflexivity|].
    apply Forall_lookup_2. intros j x Hj.
    destruct (E.closed x) eqn:Hx; [reflexivity|].
    specialize (Hopen _ _ Hj Hx). discriminate.
Qed.

(** Under the invariant, closing the current subscription detaches the
    three listeners, and there is nothing to detach without one. *)
Lemma detached_reachable (st : E.Editor) :
  E.registration_inv st ->
  E.detached st
  = if isSome (E._eventsSubscription st)
    then [Off SelectionChange; Off TextChange; Off EditorChange]
    else [].
Proof.
  intros (_ & Hcur & Hshape). unfold E.detached.
  destruct (E._eventsSubscription st) as [k|] eqn:Hk; simpl; [|reflexivity].
  destruct (Hcur k eq_refl) as (_ & s & Hs & Hc).
  rewrite Hs, Hc.
  change ((fun l => Off (E.event l)) <$> E.listeners s)
    with ((Off ∘ E.event) <$> E.listeners s).
  rewrite list_fmap_compose, (Hshape k s Hs). reflexivity.
Qed.

End Registration.

(** The sample editors are reachable: a value is written, then the engine
    loads. *)
Lemma sample_ready_reachable (debounceTime : option Z) :
  E.reachable Sample.runtime
    (Sample.ready
       (Sample.editor_inputs None false false None None debounceTime)
       (JsString "Hallo")).
Proof.
  replace (Sample.ready
             (Sample.editor_inputs None false false None None debounceTime)
             (JsString "Hallo"))
    with (fst (E.run Sample.runtime E.QuillLoaded
                 (fst (E.run Sample.runtime (E.WriteValue (JsString "Hallo"))
                         (E.created
                            (Sample.editor_inputs None false false None None
                               debounceTime)
                            Sample.config Sample.observers)))))
    by (destruct debounceTime; vm_compute; reflexivity).
  apply E.reachable_run, E.reachable_run, E.reachable_created.
Qed.

(** An editor whose load stopped at the flush is reachable: an object is
    written while the format is [text], then the engine loads and refuses
    the object as a text. *)
Lemma sample_stopped_reachable :
  E.reachable Sample.runtime
    (Sample.loaded
       (Sample.editor_inputs (Some FmtText) false false None None None)
       (JsObject [("a", JsNumber 1)])).
Proof.
  replace (Sample.loaded
             (Sample.editor_inputs (Some FmtText) false false None None None)
             (JsObject [("a", JsNumber 1)]))
    with (fst (E.run Sample.runtime E.QuillLoaded
                 (fst (E.run Sample.runtime
                         (E.WriteValue (JsObject [("a", JsNumber 1)]))
                         (E.created
                            (Sample.editor_inputs (Some FmtText) false false
                               None None None)
                            Sample.config Sample.observers)))))
    by (vm_compute; reflexivity).
  apply E.reachable_run, E.reachable_run, E.reachable_created.
Qed.

(** C7, at the input on which the code falls short of it.  An editor is
    created with an interval of 400 and loads; then the interval is changed
    to none while the instance exists.  The input reads none afterwards,
    but the subscription that debounces text and editor changes by 400 is
    still the current one and open, and no listener was detached or
    attached: nothing was torn down or rebuilt, and the new setting does not
    apply.  An editor created with no interval, in contrast, attaches
    listeners that do not debounce. *)
Lemma change_debounceTime_cleared_keeps_listeners :
  exists st',
    E.change_debounceTime Sample.runtime None
      (Sample.ready
         (Sample.editor_inputs None false false None None (Some 400))
         (JsString "Hallo")) = Ok st' /\
    E.debounceTime (E.inputs st') = None /\
    E._eventsSubscription st' = Some 0%nat /\
    E.subscriptions st'
      = [{| E.closed := false;
            E.listeners :=
              [{| E.event := SelectionChange; E.debounce := None |};
               {| E.event := TextChange; E.debounce := Some 400 |};
               {| E.event := EditorChange; E.debounce := Some 400 |}] |}] /\
    (calls <$> E._quillEditor st')
      = Some [SetContents (JsObject [("ops", JsArray [])]) (Some "silent");
              HistoryClear; Enable None;
              On SelectionChange; On TextChange; On EditorChange] /\
    E.subscriptions
      (Sample.ready (Sample.editor_inputs None false false None None None)
         (JsString "Hallo"))
      = [{| E.closed := false;
            E.listeners :=
              [{| E.event := SelectionChange; E.debounce := None |};
               {| E.event := TextChange; E.debounce := None |};
               {| E.event := EditorChange; E.debounce := None |}] |}].
Proof.
  eexists. split; [vm_compute; reflexivity|].
  repeat split.
Qed.

(** ** Values written before the engine has loaded *)

Section Buffering.
Variable rt : Runtime.

Lemma toggle_calls_no_write (b : option bool) (st : E.Editor) :
  List.filter is_write (E.toggle_calls b st) = [].
Proof.
  unfold E.toggle_calls.
  destruct (default (E._disabled st) b),
    (truthy_flag (E.readOnly (E.inputs st))); reflexivity.
Qed.

Lemma detached_no_write (st : E.Editor) :
  List.filter is_write (E.detached st) = [].
Proof.
  unfold E.detached.
  destruct (E._eventsSubscription st) as [i|]; [|reflexivity].
  destruct (E.subscriptions st !! i) as [s|]; [|reflexivity].
  destruct (E.closed s); [reflexivity|].
  induction (E.listeners s) as [|l ls IH]; [reflexivity | exact IH].
Qed.

(** What the loader's subscriber has called on the fresh instance when it is
    left, and which of these calls are writes. *)
Lemma onQuillLoaded_calls (st : E.Editor) :
  exists q flush,
    E._quillEditor (fst (E.onQuillLoaded_run rt st)) = Some q /\
    (exists rest, calls q = flush ++ rest) /\
    List.filter is_write (calls q) = List.filter is_write flush /\
    (if truthy (E._content st) then
       exists w, E.flushes rt st w /\
         if refused rt w (new_Quill rt (E.resolved_options st)) then
           flush = [w] /\ calls q = [w] /\
           E.onQuillLoaded rt st = Throw EngineError
         else
           flush = [w; HistoryClear] /\
           E.onQuillLoaded rt st = Ok (fst (E.onQuillLoaded_run rt st))
     else flush = [] /\
          E.onQuillLoaded rt st = Ok (fst (E.onQuillLoaded_run rt st))).
Proof.
  unfold E.onQuillLoaded.
  destruct (onQuillLoaded_run_spec rt st)
    as [(st' & flush & -> & Hflush & Hq & _) | (w & Ht & Hw & Hr & ->)].
  - exists (invoke_all rt
              (flush ++ E.toggle_calls None st ++ E.detached st ++
               [On SelectionChange; On TextChange; On EditorChange])
              (new_Quill rt (E.resolved_options st))), flush.
    split; [exact Hq|].
    rewrite calls_invoke_all. simpl.
    split; [eexists; reflexivity|]. split.
    + rewrite !List.filter_app, toggle_calls_no_write, detached_no_write.
      simpl. rewrite app_nil_r. reflexivity.
    + destruct (truthy (E._content st)).
      * destruct Hflush as (w & -> & Hw & Hr). exists w.
        split; [exact Hw|]. rewrite Hr. split; reflexivity.
      * split; [exact Hflush | reflexivity].
  - exists (invoke rt w (new_Quill rt (E.resolved_options st))), [w].
    split; [reflexivity|]. split; [exists []; reflexivity|].
    split; [reflexivity|]. rewrite Ht. exists w. split; [exact Hw|].
    rewrite Hr. repeat split.
Qed.

(** C1, as the code has it: a [writeValue] before the instance exists
    reaches no engine and caches the value, unless the filter-null option
    ignores the call.  When the engine loads, a truthy cached value is
    handed to the new instance once, as its first call and silently: as
    a text under the text format, as the contents that [valueSetter] makes
    of it otherwise.  If the engine takes the write, [history.clear()] is
    the next call and the loader's subscriber returns; if the engine refuses
    it, the exception leaves the subscriber, and that write is the only call
    the instance has received.  A falsy cached value is not written, and
    the subscriber returns. *)
Theorem writeValue_before_instance (st : E.Editor) (v : JsValue) :
  E._quillEditor st = None ->
  exists st1,
    E.writeValue rt v st = Ok st1 /\
    E._quillEditor st1 = None /\
    E._content st1
      = (if E.filterNull (E.inputs st) && is_null v then E._content st else v) /\
    exists q,
      E._quillEditor (fst (E.onQuillLoaded_run rt st1)) = Some q /\
      if truthy (E._content st1) then
        exists w rest,
          calls q = w :: rest /\
          is_silent_write w = true /\
          List.filter is_write (calls q) = [w] /\
          match E.resolved_format st with
          | FmtText => w = SetText (E._content st1) (Some "silent")
          | _ =>
              exists nv,
                E.valueSetter rt st (new_Quill rt (E.resolved_options st))
                  (E._content st1) = Ok nv /\
                w = SetContents nv (Some "silent")
          end /\
          if refused rt w (new_Quill rt (E.resolved_options st)) then
            rest = [] /\
            E.onQuillLoaded rt st1 = Throw EngineError
          else
            (exists rest', rest = HistoryClear :: rest') /\
            E.onQuillLoaded rt st1 = Ok (fst (E.onQuillLoaded_run rt st1))
      else
        List.filter is_write (calls q) = [] /\
        E.onQuillLoaded rt st1 = Ok (fst (E.onQuillLoaded_run rt st1)).
Proof.
  intros Hnone.
  assert (Hw : exists st1,
            E.writeValue rt v st = Ok st1 /\
            E._quillEditor st1 = None /\
            E._content st1
              = (if E.filterNull (E.inputs st) && is_null v
                 then E._content st else v) /\
            E.inputs st1 = E.inputs st /\ E.config st1 = E.config st).
  { unfold E.writeValue, E.writeValue_run.
    destruct (E.filterNull (E.inputs st) && is_null v).
    - exists st. repeat split. exact Hnone.
    - cbn [E._quillEditor E.set_content]. rewrite Hnone.
      exists (E.set_content v st). repeat split. exact Hnone. }
  destruct Hw as (st1 & Hrun & Hq1 & Hc1 & Hin & Hcfg).
  exists st1. split; [exact Hrun|]. split; [exact Hq1|]. split; [exact Hc1|].
  destruct (onQuillLoaded_calls st1)
    as (q & flush & Hq2 & [rest Hcalls] & Hwrites & Hflush).
  exists q. split; [exact Hq2|].
  assert (Hfmt : E.resolved_format st1 = E.resolved_format st)
    by (unfold E.resolved_format; rewrite Hin, Hcfg; reflexivity).
  assert (Hopt : E.resolved_options st1 = E.resolved_options st)
    by (unfold E.resolved_options; rewrite Hin, Hcfg; reflexivity).
  assert (Hvs : forall q0 x, E.valueSetter rt st1 q0 x = E.valueSetter rt st q0 x)
    by (intros q0 x; unfold E.valueSetter, E.resolved_format;
        rewrite Hin, Hcfg; reflexivity).
  destruct (truthy (E._content st1)).
  - destruct Hflush as (w & Hw & Hout).
    unfold E.flushes in Hw. rewrite Hfmt, Hopt, Hvs in Hw.
    rewrite Hopt in Hout.
    assert (Hsilent : is_silent_write w = true /\ List.filter is_write [w] = [w]).
    { destruct (E.resolved_format st);
        try destruct Hw as (nv & _ & Hw); subst w; split; reflexivity. }
    destruct Hsilent as [Hsilent Hone].
    destruct (refused rt w (new_Quill rt (E.resolved_options st))) eqn:Hr.
    + destruct Hout as (-> & Hall & Hthrow).
      exists w, []. split; [exact Hall|]. split; [exact Hsilent|].
      split; [rewrite Hwrites; exact Hone|]. split; [exact Hw|].
      rewrite Hr. split; [reflexivity | exact Hthrow].
    + destruct Hout as (-> & Hok).
      exists w, (HistoryClear :: rest). split; [exact Hcalls|].
      split; [exact Hsilent|].
      split; [rewrite Hwrites; simpl; exact Hone|]. split; [exact Hw|].
      rewrite Hr. split; [eexists; reflexivity | exact Hok].
  - destruct Hflush as (-> & Hok). split; [exact Hwrites | exact Hok].
Qed.

End Buffering.

(** At a freshly created editor, for the text [Hallo]. *)
Lemma writeValue_before_instance_witness :
  exists st1,
    E.writeValue Sample.runtime (JsString "Hallo")
      (E.created (Sample.editor_inputs (Some FmtText) false false None None None)
         Sample.config Sample.observers) = Ok st1 /\
    E._quillEditor st1 = None /\
    E._content st1 = JsString "Hallo".
Proof.
  destruct (writeValue_before_instance Sample.runtime
              (E.created
                 (Sample.editor_inputs (Some FmtText) false false None None None)
                 Sample.config Sample.observers)
              (JsString "Hallo") eq_refl)
    as (st1 & Hrun & Hq & Hcontent & _).
  exists st1. split; [exact Hrun|]. split; [exact Hq | exact Hcontent].
Defined.

(** The buffered value reaches the engine as one silent write. *)
Example buffered_value_flushed :
  calls <$> E._quillEditor
    (Sample.ready (Sample.editor_inputs (Some FmtText) false false None None None)
       (JsString "Hallo"))
  = Some [SetText (JsString "Hallo") (Some "silent"); HistoryClear;
          Enable None; On SelectionChange; On TextChange; On EditorChange].
Proof. vm_compute. reflexivity. Qed.

(** C1 as stated fails in two places.  With the filter-null option
    enabled, [null] written before the instance exists is not cached: the
    component keeps the value it had.  And a buffered value that the engine
    refuses, here an object under the text format, is handed to the new
    instance, but [history.clear()] does not follow: the loader's subscriber
    throws, and the instance is left with that one call and without
    listeners. *)
Lemma writeValue_before_instance_exceptions :
  (exists st1,
     E.writeValue Sample.runtime JsNull
       (Sample.waiting (Sample.editor_inputs None true false None None None)
          (JsString "Hallo")) = Ok st1 /\
     E._quillEditor st1 = None /\
     E._content st1 = JsString "Hallo") /\
  E.writeValue Sample.runtime (JsObject [("a", JsNumber 1)])
    (E.created (Sample.editor_inputs (Some FmtText) false false None None None)
       Sample.config Sample.observers)
  = Ok (Sample.waiting
          (Sample.editor_inputs (Some FmtText) false false None None None)
          (JsObject [("a", JsNumber 1)])) /\
  E.onQuillLoaded Sample.runtime
    (Sample.waiting
       (Sample.editor_inputs (Some FmtText) false false None None None)
       (JsObject [("a", JsNumber 1)]))
  = Throw EngineError /\
  (calls <$> E._quillEditor
     (Sample.loaded
        (Sample.editor_inputs (Some FmtText) false false None None None)
        (JsObject [("a", JsNumber 1)])))
  = Some [SetText (JsObject [("a", JsNumber 1)]) (Some "silent")] /\
  E._eventsSubscription
    (Sample.loaded
       (Sample.editor_inputs (Some FmtText) false false None None None)
       (JsObject [("a", JsNumber 1)]))
  = None.
Proof.
  split; [eexists; split; [reflexivity|]; split; reflexivity|].
  vm_compute. repeat split.
Qed.

(** ** The read-only binder *)

Section ViewContent.
Variable rt : Runtime.


End ViewContent.


(** A truthy value is written as it arrives. *)
Example view_content_updated :
  (calls <$> V.quillEditor
     (Sample.unwrap
        (V.change_content Sample.runtime (JsString "Hallo 123")
           (Sample.view_ready (Some FmtText) (JsString "Hallo")))
        (Sample.view_waiting (Some FmtText) JsUndefined)))
  = Some [SetText (JsString "Hallo") None; SetText (JsString "Hallo 123") None].
Proof. vm_compute. reflexivity. Qed.

(** * Further properties *)

(** ** Class names *)

Section ClassNames.

Lemma trimEnd_idem (s : string) : trimEnd (trimEnd s) = trimEnd s.
Proof.
  induction s as [|c r IH]; [reflexivity|].
  cbn [trimEnd]. destruct (trimEnd r) as [|c' r'] eqn:Hr.
  - destruct (is_js_space c) eqn:Hc; [reflexivity|].
    cbn [trimEnd]. rewrite Hc. reflexivity.
  - change (trimEnd (String c (String c' r')))
      with (match trimEnd (String c' r') with
            | EmptyString =>
                if is_js_space c then EmptyString else String c EmptyString
            | r0 => String c r0
            end).
    rewrite IH. reflexivity.
Qed.

Lemma trimStart_no_leading (s : string) :
  Styling.no_leading_space (trimStart s).
Proof.
  induction s as [|c r IH]; [exact I|].
  cbn [trimStart]. destruct (is_js_space c) eqn:Hc; [exact IH | exact Hc].
Qed.

Lemma trimStart_fixed (s : string) :
  Styling.no_leading_space s -> trimStart s = s.
Proof. destruct s as [|c r]; [reflexivity|]. simpl. intros ->. reflexivity. Qed.

Lemma trimEnd_no_leading (s : string) :
  Styling.no_leading_space s -> Styling.no_leading_space (trimEnd s).
Proof.
  destruct s as [|c r]; [intros; exact I|].
  simpl. intros Hc. destruct (trimEnd r); [rewrite Hc|]; exact Hc.
Qed.

Lemma trim_idem (s : string) : trim (trim s) = trim s.
Proof.
  unfold trim.
  rewrite (trimStart_fixed (trimEnd (trimStart s))).
  - apply trimEnd_idem.
  - apply trimEnd_no_leading, trimStart_no_leading.
Qed.

Lemma trimStart_space_free (s : string) :
  Styling.contains_space s = false -> Styling.contains_space (trimStart s) = false.
Proof.
  induction s as [|c r IH]; [reflexivity|].
  simpl. intros H. apply orb_false_iff in H as [Hc Hr].
  destruct (is_js_space c); [exact (IH Hr)|].
  simpl. rewrite Hc, Hr. reflexivity.
Qed.

Lemma trimEnd_space_free (s : string) :
  Styling.contains_space s = false -> Styling.contains_space (trimEnd s) = false.
Proof.
  induction s as [|c r IH]; [reflexivity|].
  simpl. intros H. apply orb_false_iff in H as [Hc Hr].
  specialize (IH Hr). destruct (trimEnd r) as [|c' r'].
  - destruct (is_js_space c); [reflexivity|]. simpl. rewrite Hc. reflexivity.
  - cbn [Styling.contains_space]. rewrite Hc. exact IH.
Qed.

Lemma split_space_space_free (s : string) :
  Forall (fun p => Styling.contains_space p = false) (Styling.split_space s).
Proof.
  induction s as [|c r IH]; simpl.
  - constructor; [reflexivity | constructor].
  - destruct (Ascii.eqb c " ") eqn:Hc.
    + constructor; [reflexivity | exact IH].
    + destruct (Styling.split_space r) as [|p ps].
      * constructor; [simpl; rewrite Hc; reflexivity | constructor].
      * inversion IH as [|? ? Hp Hps]; subst.
        constructor; [simpl; rewrite Hc, Hp; reflexivity | exact Hps].
Qed.

(** The reduction of [normalizeClassNames] keeps the trimmed pieces that
    are not empty, in their order. *)
Lemma normalize_fold (acc l : list string) :
  foldl (fun prev cur =>
           let trimmed := trim cur in
           if negb (String.eqb trimmed "") then prev ++ [trimmed] else prev)
        acc l
  = acc ++ List.filter (fun c => negb (String.eqb c "")) (trim <$> l).
Proof.
  revert acc. induction l as [|x l IH]; intros acc; simpl.
  - rewrite app_nil_r. reflexivity.
  - rewrite IH. destruct (String.eqb (trim x) ""); simpl; [reflexivity|].
    rewrite <- app_assoc. reflexivity.
Qed.

(** X1: every class name that [normalizeClassNames] returns is non-empty,
    has no white space at either end and contains no space character. *)
Theorem normalizeClassNames_tokens (classes : string) :
  Forall (fun c => c <> "" /\ trim c = c /\ Styling.contains_space c = false)
         (Styling.normalizeClassNames classes).
Proof.
  unfold Styling.normalizeClassNames. rewrite normalize_fold. simpl.
  pose proof (split_space_space_free (trim classes)) as Hfree.
  induction Hfree as [|p ps Hp _ IH]; simpl; [constructor|].
  destruct (String.eqb_spec (trim p) "") as [He | Hne]; simpl; [exact IH|].
  constructor; [|exact IH].
  split; [exact Hne|]. split; [apply trim_idem|].
  unfold trim. apply trimEnd_space_free, trimStart_space_free, Hp.
Qed.

(** The two examples of the test suite. *)
Example normalizeClassNames_examples :
  Styling.normalizeClassNames "test-class  " = ["test-class"] /\
  Styling.normalizeClassNames "test-class   test-class2"
    = ["test-class"; "test-class2"].
Proof. split; reflexivity. Qed.

End ClassNames.

(** ** Classes and styles of the editor element *)

Section ElementStyling.
#[local] Set Warnings "-clear-no-such-hyp".

Lemma addClass_fold (l : list string) (el : Styling.Element) :
  Styling.classList (foldl (fun el c => Styling.addClass c el) el l)
    = list_to_set l ∪ Styling.classList el /\
  Styling.style (foldl (fun el c => Styling.addClass c el) el l)
    = Styling.style el.
Proof.
  revert el. induction l as [|c l IH]; intros el; simpl.
  - split; [set_solver | reflexivity].
  - destruct (IH (Styling.addClass c el)) as [-> ->]. simpl.
    split; [set_solver | reflexivity].
Qed.

Lemma removeClass_fold (l : list string) (el : Styling.Element) :
  Styling.classList (foldl (fun el c => Styling.removeClass c el) el l)
    = Styling.classList el ∖ list_to_set l /\
  Styling.style (foldl (fun el c => Styling.removeClass c el) el l)
    = Styling.style el.
Proof.
  revert el. induction l as [|c l IH]; intros el; simpl.
  - split; [set_solver | reflexivity].
  - destruct (IH (Styling.removeClass c el)) as [-> ->]. simpl.
    split; [set_solver | reflexivity].
Qed.

Lemma names_of_falsy (classes : option string) :
  Styling.truthy_text classes = false ->
  Styling.names_of Styling.normalizeClassNames classes = [].
Proof.
  destruct classes as [s|]; [|reflexivity]. simpl.
  destruct (String.eqb_spec s "") as [-> | Hne]; [reflexivity | discriminate].
Qed.

(** X2: when the [classes] input changes, the element loses the class
    names of the previous value and then gains those of the new one: a name
    in both values stays, a name only in the previous value goes, also when
    the element had it for another reason; the inline styles are not
    touched and the new value is remembered. *)
Theorem classes_subscriber_classList (classes : option string)
    (st : Styling.Styled) :
  Styling.classList (Styling._editorElem (Styling.classes_subscriber classes st))
    = list_to_set (Styling.names_of Styling.normalizeClassNames classes) ∪
      (Styling.classList (Styling._editorElem st) ∖
       list_to_set (Styling.names_of Styling.normalizeClassNames
                      (Styling._previousClasses st))) /\
  Styling.style (Styling._editorElem (Styling.classes_subscriber classes st))
    = Styling.style (Styling._editorElem st) /\
  Styling._previousClasses (Styling.classes_subscriber classes st) = classes.
Proof.
  unfold Styling.classes_subscriber. cbn [Styling._editorElem Styling._previousClasses].
  set (prev := Styling._previousClasses st).
  set (el := Styling._editorElem st).
  assert (Hrem : forall o : option string,
    let el' := if Styling.truthy_text o
               then Styling.removeClasses (default "" o) el else el in
    Styling.classList el'
      = Styling.classList el ∖
        list_to_set (Styling.names_of Styling.normalizeClassNames o) /\
    Styling.style el' = Styling.style el).
  { intros o. destruct (Styling.truthy_text o) eqn:Ho; cbn zeta.
    - destruct o as [s|]; [|discriminate]. apply removeClass_fold.
    - rewrite (names_of_falsy o Ho). split; [set_solver | reflexivity]. }
  assert (Hadd : forall (o : option string) (e : Styling.Element),
    let el' := if Styling.truthy_text o
               then Styling.addClasses (default "" o) e else e in
    Styling.classList el'
      = list_to_set (Styling.names_of Styling.normalizeClassNames o) ∪
        Styling.classList e /\
    Styling.style el' = Styling.style e).
  { intros o e. destruct (Styling.truthy_text o) eqn:Ho; cbn zeta.
    - destruct o as [s|]; [|discriminate]. apply addClass_fold.
    - rewrite (names_of_falsy o Ho). split; [set_solver | reflexivity]. }
  destruct (Hrem prev) as [Hr1 Hr2].
  destruct (Hadd classes
              (if Styling.truthy_text prev
               then Styling.removeClasses (default "" prev) el else el))
    as [Ha1 Ha2].
  cbn zeta in *. rewrite Ha1, Ha2, Hr1, Hr2. repeat split.
Qed.

(** The example of the test suite: from [test-class1 test-class2] to
    [test-class2 test-class3]. *)
Example classes_subscriber_example :
  Styling.classList
    (Styling._editorElem
       (Styling.classes_subscriber (Some "test-class2 test-class3")
          (Styling.onQuillLoaded None (Some "test-class1 test-class2")
             {| Styling.classList := {["ql-container"]};
                Styling.style := ∅ |}
             {| Styling._editorElem :=
                  {| Styling.classList := ∅; Styling.style := ∅ |};
                Styling._previousStyles := None;
                Styling._previousClasses := None |})))
  = {["ql-container"; "test-class2"; "test-class3"]}.
Proof. apply (bool_decide_unpack _). vm_compute. exact I. Qed.

Lemma elem_of_keys (o : gmap string JsValue) (k : string) :
  k ∈ Styling.keys o <-> is_Some (o !! k).
Proof.
  unfold Styling.keys. rewrite list_elem_of_fmap. split.
  - intros ([k' v] & -> & Hin). apply elem_of_map_to_list in Hin. eauto.
  - intros [v Hv]. exists (k, v). split; [reflexivity|].
    apply elem_of_map_to_list. exact Hv.
Qed.

Lemma removeStyle_fold (l : list string) (el : Styling.Element) (k : string) :
  Styling.style (foldl (fun el key => Styling.removeStyle key el) el l) !! k
    = (if decide (k ∈ l) then None else Styling.style el !! k) /\
  Styling.classList (foldl (fun el key => Styling.removeStyle key el) el l)
    = Styling.classList el.
Proof.
  revert el. induction l as [|x l IH]; intros el; cbn [foldl].
  - split; [|reflexivity]. rewrite decide_False by set_solver. reflexivity.
  - destruct (IH (Styling.removeStyle x el)) as [-> ->].
    cbn [Styling.style Styling.classList Styling.removeStyle Styling.setStyle].
    split; [|reflexivity].
    destruct (decide (k ∈ l)) as [Hin | Hnin].
    + rewrite decide_True by set_solver. reflexivity.
    + destruct (decide (k = x)) as [-> | Hne].
      * rewrite decide_True by set_solver. apply lookup_delete_eq.
      * rewrite decide_False by set_solver. apply lookup_delete_ne. congruence.
Qed.

Lemma setStyle_fold (f : string -> JsValue) (l : list string)
    (el : Styling.Element) (k : string) :
  Styling.style (foldl (fun el key => Styling.setStyle key (f key) el) el l) !! k
    = (if decide (k ∈ l) then Some (f k) else Styling.style el !! k) /\
  Styling.classList
    (foldl (fun el key => Styling.setStyle key (f key) el) el l)
    = Styling.classList el.
Proof.
  revert el. induction l as [|x l IH]; intros el; cbn [foldl].
  - split; [|reflexivity]. rewrite decide_False by set_solver. reflexivity.
  - destruct (IH (Styling.setStyle x (f x) el)) as [-> ->].
    cbn [Styling.style Styling.classList Styling.removeStyle Styling.setStyle].
    split; [|reflexivity].
    destruct (decide (k ∈ l)) as [Hin | Hnin].
    + rewrite decide_True by set_solver. reflexivity.
    + destruct (decide (k = x)) as [-> | Hne].
      * rewrite decide_True by set_solver. apply lookup_insert_eq.
      * rewrite decide_False by set_solver. apply lookup_insert_ne. congruence.
Qed.

(** X3: when the [styles] input changes, every style of the new value is
    set on the element with its value, every style that only the previous
    value had is removed, and the other inline styles stay; a change to
    [null] removes the previous styles; the classes are not touched and
    the new value is remembered. *)
Theorem styles_subscriber_style (styles : option (gmap string JsValue))
    (st : Styling.Styled) (key : string) :
  Styling.style (Styling._editorElem (Styling.styles_subscriber styles st)) !! key
    = match Styling.property styles key with
      | Some v => Some v
      | None =>
          match Styling.property (Styling._previousStyles st) key with
          | Some _ => None
          | None => Styling.style (Styling._editorElem st) !! key
          end
      end /\
  Styling.classList (Styling._editorElem (Styling.styles_subscriber styles st))
    = Styling.classList (Styling._editorElem st) /\
  Styling._previousStyles (Styling.styles_subscriber styles st) = styles.
Proof.
  unfold Styling.styles_subscriber.
  cbn [Styling._editorElem Styling._previousStyles].
  set (el := Styling._editorElem st).
  set (el1 := match Styling._previousStyles st with
              | Some previous =>
                  foldl (fun el key => Styling.removeStyle key el) el
                        (Styling.keys previous)
              | None => el
              end).
  assert (H1 : Styling.style el1 !! key
               = match Styling.property (Styling._previousStyles st) key with
                 | Some _ => None
                 | None => Styling.style el !! key
                 end /\
               Styling.classList el1 = Styling.classList el).
  { subst el1. destruct (Styling._previousStyles st) as [p|]; simpl.
    - destruct (removeStyle_fold (Styling.keys p) el key) as [-> ->].
      split; [|reflexivity].
      destruct (decide (key ∈ Styling.keys p)) as [Hin | Hnin].
      + apply elem_of_keys in Hin as [v ->]. reflexivity.
      + destruct (p !! key) eqn:Hp; [|reflexivity].
        exfalso. apply Hnin, elem_of_keys. eauto.
    - split; reflexivity. }
  destruct H1 as [Hs1 Hc1].
  destruct styles as [c|]; simpl.
  - destruct (setStyle_fold (Styling.get c) (Styling.keys c) el1 key)
      as [-> ->].
    split; [|split; [exact Hc1 | reflexivity]].
    destruct (decide (key ∈ Styling.keys c)) as [Hin | Hnin].
    + apply elem_of_keys in Hin as [v Hv].
      unfold Styling.get. rewrite Hv. reflexivity.
    + destruct (c !! key) eqn:Hc; [|exact Hs1].
      exfalso. apply Hnin, elem_of_keys. eauto.
  - split; [exact Hs1 | split; [exact Hc1 | reflexivity]].
Qed.

End ElementStyling.

(** ** The read path *)

Section ReadPathFacts.
Variable rt : Runtime.
Variable getSemanticHTML : Quill -> string.

(** X4: for a text change, the model callback is called exactly when it is
    registered and the source is [user] or the track-changes mode, the
    component's before the service's, is [all]; it is called before
    [onContentChanged] is emitted, with the field of the emitted payload
    that belongs to the format.  [onContentChanged] is emitted when the
    callback is called or the output is observed, and otherwise nothing is
    sent.  [onEditorChanged] carries the same payload and depends on its own
    observers only. *)
Theorem textChangeHandler_sent (delta oldDelta : JsValue) (source : string)
    (st : E.Editor) (o : ReadPath.Outputs) (q : Quill) :
  ReadPath.textChangeHandler rt getSemanticHTML delta oldDelta source st o q
    = (let change :=
         ReadPath.content_change getSemanticHTML delta oldDelta source o q in
       if ReadPath._onModelChange o &&
          (String.eqb source "user" ||
           bool_decide (or_else (E.trackChanges (E.inputs st))
                                (cfg_trackChanges (E.config st))
                        = Some TrackAll))
       then [ReadPath.ModelChange
               (ReadPath.model_value_of rt (E.resolved_format st) change);
             ReadPath.OnContentChanged change]
       else if ReadPath.onContentChanged_observed o
            then [ReadPath.OnContentChanged change]
            else []) /\
  ReadPath.editorChangeHandler getSemanticHTML TextChange delta oldDelta source o q
    = (if ReadPath.onEditorChanged_observed o
       then [ReadPath.OnEditorChangedText
               (ReadPath.content_change getSemanticHTML delta oldDelta source
                  o q)]
       else []).
Proof.
  split.
  - unfold ReadPath.textChangeHandler, ReadPath.shouldTriggerOnModelChange.
    cbv zeta.
    assert (Htrack : forall t : option TrackChanges,
              E.track_all t = bool_decide (t = Some TrackAll)).
    { intros [[|]|]; reflexivity. }
    rewrite Htrack.
    assert (Hvalue :
      ReadPath.valueGetter rt getSemanticHTML st o q
      = ReadPath.model_value_of rt (E.resolved_format st)
          (ReadPath.content_change getSemanticHTML delta oldDelta source o q)).
    { unfold ReadPath.valueGetter, ReadPath.model_value_of.
      destruct (E.resolved_format st); reflexivity. }
    rewrite Hvalue.
    destruct (ReadPath._onModelChange o),
      (String.eqb source "user" || bool_decide _),
      (ReadPath.onContentChanged_observed o); reflexivity.
  - unfold ReadPath.editorChangeHandler.
    destruct (ReadPath.onEditorChanged_observed o); reflexivity.
Qed.

(** X5: under the formats text, object and json the value given to a form
    does not depend on [defaultEmptyValue]: an emptied editor reports its
    text or its document, not the configured empty value.  Under html the
    value is [defaultEmptyValue] exactly for the four empty markups and the
    markup itself otherwise. *)
Theorem valueGetter_defaultEmptyValue (st : E.Editor) (o o' : ReadPath.Outputs)
    (q : Quill) :
  match E.resolved_format st with
  | FmtHtml =>
      ReadPath.valueGetter rt getSemanticHTML st o q
      = if bool_decide
             (getSemanticHTML q
              ∈ ["<p></p>"; "<div></div>"; "<p><br></p>"; "<div><br></div>"])
        then ReadPath.defaultEmptyValue o
        else JsString (getSemanticHTML q)
  | _ =>
      ReadPath.valueGetter rt getSemanticHTML st o q
      = ReadPath.valueGetter rt getSemanticHTML st o' q
  end.
Proof.
  unfold ReadPath.valueGetter.
  destruct (E.resolved_format st); try reflexivity.
  unfold ReadPath.html_or_default, ReadPath._isEmptyValue.
  set (h := getSemanticHTML q).
  destruct (String.eqb_spec h "<p></p>") as [-> | H1];
    [rewrite bool_decide_eq_true_2 by set_solver; reflexivity|].
  destruct (String.eqb_spec h "<div></div>") as [-> | H2];
    [rewrite bool_decide_eq_true_2 by set_solver; reflexivity|].
  destruct (String.eqb_spec h "<p><br></p>") as [-> | H3];
    [rewrite bool_decide_eq_true_2 by set_solver; reflexivity|].
  destruct (String.eqb_spec h "<div><br></div>") as [-> | H4];
    [rewrite bool_decide_eq_true_2 by set_solver; reflexivity|].
  rewrite bool_decide_eq_false_2 by set_solver. reflexivity.
Qed.

End ReadPathFacts.

(** ** More on the external write path *)

Section WritePathFacts.
Variable rt : Runtime.

(** X6: [writeValue] makes at most one call on the instance: a write that
    carries no source, so never a silent one.  Without an instance it
    returns and makes no call.  With an instance it returns when it makes
    no call, and when it makes one it throws exactly if the engine refuses
    that write, which has reached the instance all the same; what
    [JSON.parse] does never makes it throw. *)
Theorem writeValue_calls (st : E.Editor) (v : JsValue) :
  match E._quillEditor st with
  | None =>
      exists st', E.writeValue rt v st = Ok st' /\ E._quillEditor st' = None
  | Some q =>
      exists q',
        E._quillEditor (fst (E.writeValue_run rt v st)) = Some q' /\
        ((calls q' = calls q /\
          E.writeValue rt v st = Ok (fst (E.writeValue_run rt v st))) \/
         (exists w,
            calls q' = calls q ++ [w] /\ is_plain_write w = true /\
            E.writeValue rt v st
            = if refused rt w q then Throw EngineError
              else Ok (fst (E.writeValue_run rt v st))))
  end.
Proof.
  unfold E.writeValue, E.writeValue_run.
  destruct (E.filterNull (E.inputs st) && is_null v).
  { destruct (E._quillEditor st) as [q|] eqn:Hq; simpl.
    - exists q. split; [exact Hq | left; split; reflexivity].
    - exists st. split; [reflexivity | exact Hq]. }
  cbn [E._quillEditor E.set_content].
  destruct (E._quillEditor st) as [q|] eqn:Hq.
  2:{ exists (E.set_content v st). split; [reflexivity | exact Hq]. }
  destruct (valueSetter_total rt (E.set_content v st) q v) as [nv ->].
  assert (Hq' : E._quillEditor (E.set_content v st) = Some q) by exact Hq.
  assert (Hcall : forall w, is_plain_write w = true ->
    exists q',
      E._quillEditor (fst (E.write rt w (E.set_content v st))) = Some q' /\
      ((calls q' = calls q /\
        settle (E.write rt w (E.set_content v st))
        = Ok (fst (E.write rt w (E.set_content v st)))) \/
       (exists w0,
          calls q' = calls q ++ [w0] /\ is_plain_write w0 = true /\
          settle (E.write rt w (E.set_content v st))
          = if refused rt w0 q then Throw EngineError
            else Ok (fst (E.write rt w (E.set_content v st)))))).
  { intros w Hw. exists (invoke rt w q). split.
    - rewrite write_fst. unfold E.call. simpl. rewrite Hq. reflexivity.
    - right. exists w. split; [reflexivity|]. split; [exact Hw|].
      destruct (refused rt w q) eqn:Hr.
      + rewrite (write_refused rt w _ q Hq' Hr). reflexivity.
      + rewrite (write_accepted rt w _ q Hq' Hr). reflexivity. }
  destruct (E.compareValues (E.inputs (E.set_content v st)) && _).
  { exists q. split; [exact Hq | left; split; reflexivity]. }
  destruct (truthy v); [destruct (E.resolved_format _)|];
    apply Hcall; reflexivity.
Qed.

(** X7: before the instance exists only the last value that was not
    filtered counts: writing [v1] and then [v2] leaves the component as
    writing [v2] alone does, unless the filter-null option ignores [v2],
    in which case it leaves it as writing [v1] alone does. *)
Theorem writeValue_last_wins (st : E.Editor) (v1 v2 : JsValue) :
  E._quillEditor st = None ->
  (st1 ← E.writeValue rt v1 st; E.writeValue rt v2 st1)
  = if E.filterNull (E.inputs st) && is_null v2
    then E.writeValue rt v1 st
    else E.writeValue rt v2 st.
Proof.
  intros Hq. unfold E.writeValue, E.writeValue_run.
  destruct (E.filterNull (E.inputs st)) eqn:Hf, (is_null v1), (is_null v2);
    unfold_bind; simpl; rewrite ?Hq; simpl; rewrite ?Hf, ?Hq; simpl;
    rewrite ?Hq; reflexivity.
Qed.

End WritePathFacts.

(** At an editor that waits for the engine: [Hallo], then [null] with the
    filter on, then [Welt]. *)
Lemma writeValue_last_wins_witness :
  (st1 ← E.writeValue Sample.runtime JsNull
           (Sample.waiting (Sample.editor_inputs None true false None None None)
              (JsString "Hallo"));
   E.writeValue Sample.runtime (JsString "Welt") st1)
  = E.writeValue Sample.runtime (JsString "Welt")
      (Sample.waiting (Sample.editor_inputs None true false None None None)
         (JsString "Hallo")).
Proof.
  apply (writeValue_last_wins Sample.runtime
           (Sample.waiting (Sample.editor_inputs None true false None None None)
              (JsString "Hallo"))
           JsNull (JsString "Welt")).
  reflexivity.
Defined.

(** ** The life of an editor *)

Section Lifecycle.
Variable rt : Runtime.

(** The host attributes after [setDisabledState] on a component with an
    instance. *)
Lemma setDisabledState_attributes (b : option bool) (st : E.Editor) (q : Quill) :
  E._quillEditor st = Some q ->
  E._disabled (E.setDisabledState rt b st) = default (E._disabled st) b /\
  E.hostAttributes (E.setDisabledState rt b st)
    = (if default (E._disabled st) b
       then <["disabled" := "disabled"]> (E.hostAttributes st)
       else delete "disabled" (E.hostAttributes st)) /\
  E.emitted (E.setDisabledState rt b st) = E.emitted st.
Proof.
  intros Hq. unfold E.setDisabledState.
  cbn [E._quillEditor E.set_disabled E.inputs]. rewrite Hq.
  destruct (default (E._disabled st) b);
    [|destruct (truthy_flag (E.readOnly (E.inputs st)))]; repeat split.
Qed.

(** What [writeValue] leaves alone, whether it returns or throws. *)
Lemma writeValue_frame (v : JsValue) (st : E.Editor) :
  E.subscriptions (fst (E.writeValue_run rt v st)) = E.subscriptions st /\
  E._eventsSubscription (fst (E.writeValue_run rt v st))
    = E._eventsSubscription st /\
  E.hostAttributes (fst (E.writeValue_run rt v st)) = E.hostAttributes st /\
  E._disabled (fst (E.writeValue_run rt v st)) = E._disabled st /\
  (E._quillEditor (fst (E.writeValue_run rt v st)) = None
   <-> E._quillEditor st = None).
Proof.
  destruct (writeValue_run_cases rt v st) as [-> | [-> | (c & [q Hq] & ->)]].
  - repeat split; auto.
  - repeat split; auto.
  - unfold E.call. simpl. rewrite Hq. simpl. repeat split; discriminate.
Qed.

(** The fields that the loader's subscriber derives from the disabled flag:
    it leaves an instance behind, and either it ran to its end and set the
    host attribute by the flag, or it stopped at the flush and left the
    host element and the field [_eventsSubscription] as they were. *)
Lemma onQuillLoaded_disabled (st : E.Editor) :
  is_Some (E._quillEditor (fst (E.onQuillLoaded_run rt st))) /\
  E._disabled (fst (E.onQuillLoaded_run rt st)) = E._disabled st /\
  ((snd (E.onQuillLoaded_run rt st) = None /\
    E.hostAttributes (fst (E.onQuillLoaded_run rt st))
    = (if E._disabled st
       then <["disabled" := "disabled"]> (E.hostAttributes st)
       else delete "disabled" (E.hostAttributes st))) \/
   (snd (E.onQuillLoaded_run rt st) = Some EngineError /\
    E.hostAttributes (fst (E.onQuillLoaded_run rt st)) = E.hostAttributes st /\
    E._eventsSubscription (fst (E.onQuillLoaded_run rt st))
    = E._eventsSubscription st /\
    E.subscriptions (fst (E.onQuillLoaded_run rt st)) = E.subscriptions st)).
Proof.
  unfold E.onQuillLoaded_run.
  set (q0 := new_Quill rt (E.resolved_options st)).
  set (st1 := E.set_quillEditor (Some q0) st).
  assert (Hfinish : forall q2,
    let o := E._addQuillEventListeners_run rt
               (E.setDisabledState rt None (E.set_quillEditor (Some q2) st)) in
    is_Some (E._quillEditor (fst o)) /\
    E._disabled (fst o) = E._disabled st /\
    ((snd o = None /\
      E.hostAttributes (fst o)
      = (if E._disabled st
         then <["disabled" := "disabled"]> (E.hostAttributes st)
         else delete "disabled" (E.hostAttributes st))) \/
     (snd o = Some EngineError /\
      E.hostAttributes (fst o) = E.hostAttributes st /\
      E._eventsSubscription (fst o) = E._eventsSubscription st /\
      E.subscriptions (fst o) = E.subscriptions st))).
  { intros q2.
    destruct (setDisabledState_attributes None
                (E.set_quillEditor (Some q2) st) q2 eq_refl) as (Hd & Ha & _).
    pose proof (setDisabledState_quillEditor rt None
                  (E.set_quillEditor (Some q2) st)) as Hq.
    cbn [E._quillEditor E.set_quillEditor fmap option_fmap option_map] in Hq.
    cbv zeta. rewrite (addQuillEventListeners_run_eq rt _ _ Hq).
    cbn [fst snd returned E._quillEditor E._disabled E.hostAttributes
         E.set_quillEditor E.set_subscriptions].
    rewrite Hd, Ha. split; [eauto|]. split; [reflexivity|].
    left. split; reflexivity. }
  assert (Hwrite : forall w,
    let o := and_then
               (and_then (E.write rt w st1)
                  (fun st => returned (E.call rt HistoryClear st)))
               (fun st =>
                  E._addQuillEventListeners_run rt
                    (E.setDisabledState rt None st)) in
    is_Some (E._quillEditor (fst o)) /\
    E._disabled (fst o) = E._disabled st /\
    ((snd o = None /\
      E.hostAttributes (fst o)
      = (if E._disabled st
         then <["disabled" := "disabled"]> (E.hostAttributes st)
         else delete "disabled" (E.hostAttributes st))) \/
     (snd o = Some EngineError /\
      E.hostAttributes (fst o) = E.hostAttributes st /\
      E._eventsSubscription (fst o) = E._eventsSubscription st /\
      E.subscriptions (fst o) = E.subscriptions st))).
  { intros w. unfold E.write.
    change (E._quillEditor st1) with (Some q0). cbv iota.
    destruct (refused rt w q0).
    - cbn. split; [eauto|]. split; [reflexivity|]. right. repeat split.
    - exact (Hfinish (invoke rt HistoryClear (invoke rt w q0))). }
  destruct (truthy (E._content st1)).
  - destruct (E.resolved_format st1);
      try (destruct (valueSetter_total rt st1 q0 (E._content st1)) as [nv Hnv];
           rewrite Hnv);
      apply Hwrite.
  - exact (Hfinish q0).
Qed.

(** A reachable component without an instance has not registered a
    listener and has not touched its host element. *)
Lemma reachable_without_instance (st : E.Editor) :
  E.reachable rt st -> E._quillEditor st = None ->
  E.subscriptions st = [] /\ E._eventsSubscription st = None /\
  E.hostAttributes st = ∅.
Proof.
  induction 1 as [i c o | a st Hr IH]; [repeat split|].
  destruct a as [| v | b | d | | range oldRange source]; simpl.
  - exact IH.
  - destruct (writeValue_frame v st) as (-> & -> & -> & _ & Hq).
    intros Hnone. apply IH, Hq, Hnone.
  - intros Hnone.
    pose proof (setDisabledState_quillEditor rt (Some b) st) as Hq.
    rewrite Hnone in Hq. symmetry in Hq. apply fmap_None in Hq.
    destruct (setDisabledState_frame rt (Some b) st) as (Hs & Hp & _).
    rewrite Hs, Hp. destruct (IH Hq) as (H1 & H2 & H3).
    split; [exact H1 | split; [exact H2|]].
    unfold E.setDisabledState. cbn [E._quillEditor E.set_disabled].
    rewrite Hq. exact H3.
  - destruct (E._quillEditor st) as [q|] eqn:Hq.
    + rewrite (change_debounceTime_run_spec rt d st q Hq).
      destruct (truthy_num d); simpl; congruence.
    + rewrite (change_debounceTime_run_none rt d st Hq). simpl.
      intros _. exact (IH eq_refl).
  - destruct (E._quillEditor st) as [q|] eqn:Hq.
    + simpl. congruence.
    + destruct (onQuillLoaded_disabled st) as ([x Hx] & _). congruence.
  - destruct (E._quillEditor st) as [q|] eqn:Hq; simpl.
    + intros Hnone. exfalso. revert Hnone. unfold E.selectionChangeHandler.
      destruct (E.selection_suppressed range source st); [congruence|].
      destruct range, oldRange, (E.shouldTriggerOnModelTouched _ source st);
        simpl; congruence.
    + intros _. exact (IH eq_refl).
Qed.

(** X8: at every moment of a component's life at most one registration
    set is alive: one if the field [_eventsSubscription] is set, none if it
    is not.  Without an instance the field is not set; and when the
    loader's subscriber returns, it leaves an instance with one
    registration set alive. *)
Theorem reachable_alive (st : E.Editor) :
  E.reachable rt st ->
  E.alive st
    = (if isSome (E._eventsSubscription st) then 1%nat else 0%nat) /\
  (E._quillEditor st = None ->
   E._eventsSubscription st = None /\
   forall st', E.onQuillLoaded rt st = Ok st' ->
               is_Some (E._quillEditor st') /\ E.alive st' = 1%nat).
Proof.
  intros Hreach. pose proof (reachable_inv rt st Hreach) as Hinv.
  split; [exact (registration_inv_alive st Hinv)|].
  intros Hq. split.
  { destruct (reachable_without_instance st Hreach Hq) as (_ & Hp & _).
    exact Hp. }
  intros st' Hload.
  assert (Hreach' : E.reachable rt (fst (E.run rt E.QuillLoaded st)))
    by (apply E.reachable_run; exact Hreach).
  simpl in Hreach'. rewrite Hq in Hreach'.
  pose proof (registration_inv_alive _ (reachable_inv rt _ Hreach')) as Halive.
  unfold E.onQuillLoaded in Hload.
  destruct (onQuillLoaded_run_spec rt st)
    as [(st2 & flush & Hrun & _ & Hq2 & _ & Hptr & _) | (w & _ & _ & _ & Hrun)];
    rewrite Hrun in Hload, Halive; simpl in Hload, Halive; [|discriminate].
  injection Hload as <-. rewrite Hptr in Halive.
  split; [rewrite Hq2; eauto | exact Halive].
Qed.

(** X9: destroying a component closes the current subscription, if there
    is one, which detaches its three listeners from the instance in the
    order selection, text, editor; without a current subscription no call
    is made.  Either way the field is cleared and no registration set is
    left; the instance itself is kept, and destroying again changes
    nothing. *)
Theorem onDestroy_teardown (st : E.Editor) :
  E.reachable rt st ->
  E._quillEditor (E.onDestroy rt st)
    = invoke_all rt
        (if isSome (E._eventsSubscription st)
         then [Off SelectionChange; Off TextChange; Off EditorChange]
         else [])
      <$> E._quillEditor st /\
  E._eventsSubscription (E.onDestroy rt st) = None /\
  E.alive (E.onDestroy rt st) = 0%nat /\
  E.onDestroy rt (E.onDestroy rt st) = E.onDestroy rt st.
Proof.
  intros Hreach.
  pose proof (reachable_inv rt st Hreach) as Hinv.
  unfold E.onDestroy. rewrite (dispose_eq rt st).
  rewrite (detached_reachable st Hinv).
  split; [reflexivity|]. split; [reflexivity|]. split.
  - unfold E.alive.
    cbn [E.subscriptions E.set_subscriptions E.set_quillEditor].
    destruct Hinv as (Hopen & _).
    rewrite (filter_open_closed _ (current_closed_all st Hopen)). reflexivity.
  - rewrite dispose_eq. unfold E.detached, E.current_closed.
    cbn [E._eventsSubscription E.subscriptions E._quillEditor
         E.set_subscriptions E.set_quillEditor].
    rewrite invoke_all_nil_fmap. reflexivity.
Qed.

(** X10: at every moment of a component's life, the host attribute
    [disabled] is either absent or has the value [disabled], and it is only
    present on a component that has an instance and whose stored disabled
    flag is set.  When the loader's subscriber returns, the attribute is
    present exactly if the flag is set. *)
Theorem reachable_disabled_attribute (st : E.Editor) :
  E.reachable rt st ->
  (E.hostAttributes st !! "disabled" = None \/
   (E.hostAttributes st !! "disabled" = Some "disabled" /\
    is_Some (E._quillEditor st) /\ E._disabled st = true)) /\
  (E._quillEditor st = None ->
   forall st', E.onQuillLoaded rt st = Ok st' ->
     E.hostAttributes st' !! "disabled"
     = if E._disabled st' then Some "disabled" else None).
Proof.
  intros Hreach. split.
  - induction Hreach as [i c o | a st Hr IH]; [left; reflexivity|].
    destruct a as [| v | b | d | | range oldRange source]; simpl.
    + exact IH.
    + destruct (writeValue_frame v st) as (_ & _ & -> & -> & Hq).
      destruct IH as [IH | (IH & [q Hs] & Hd)]; [left; exact IH|].
      right. split; [exact IH|]. split; [|exact Hd].
      destruct (E._quillEditor (fst (E.writeValue_run rt v st)));
        [eauto|]. destruct Hq as [Hq _]. specialize (Hq eq_refl). congruence.
    + destruct (E._quillEditor st) as [q|] eqn:Hq.
      * destruct (setDisabledState_attributes (Some b) st q Hq)
          as (-> & -> & _).
        rewrite setDisabledState_quillEditor, Hq. simpl.
        destruct b.
        -- right. rewrite lookup_insert_eq. split; [reflexivity|]. eauto.
        -- left. apply lookup_delete_eq.
      * destruct IH as [IH | (_ & [q Hs] & _)]; [|discriminate].
        left. unfold E.setDisabledState. cbn [E._quillEditor E.set_disabled].
        rewrite Hq. exact IH.
    + destruct (E._quillEditor st) as [q|] eqn:Hq.
      * rewrite (change_debounceTime_run_spec rt d st q Hq).
        destruct (truthy_num d); simpl; rewrite ?Hq;
          (destruct IH as [IH | (IH & _ & Hd)];
           [left; exact IH | right; eauto]).
      * rewrite (change_debounceTime_run_none rt d st Hq). simpl.
        rewrite Hq. exact IH.
    + destruct (E._quillEditor st) as [q|] eqn:Hq; simpl.
      * rewrite Hq. exact IH.
      * destruct (reachable_without_instance st Hr Hq) as (_ & _ & Hattrs).
        destruct (onQuillLoaded_disabled st)
          as (Hsome & Hd & [(_ & Ha) | (_ & Ha & _)]); rewrite Hd, Ha.
        -- destruct (E._disabled st).
           ++ right. rewrite lookup_insert_eq. eauto.
           ++ left. apply lookup_delete_eq.
        -- left. rewrite Hattrs. apply lookup_empty.
    + assert (Hsame : forall st0,
                E.hostAttributes
                  (E.selectionChangeHandler range oldRange source st0)
                  = E.hostAttributes st0 /\
                E._disabled (E.selectionChangeHandler range oldRange source st0)
                  = E._disabled st0 /\
                E._quillEditor
                  (E.selectionChangeHandler range oldRange source st0)
                  = E._quillEditor st0).
      { intros st0. unfold E.selectionChangeHandler.
        destruct (E.selection_suppressed range source st0); [repeat split|].
        destruct range, oldRange, (E.shouldTriggerOnModelTouched _ source st0);
          repeat split. }
      destruct (E._quillEditor st) as [q|] eqn:Hq; simpl.
      * destruct (Hsame st) as (-> & -> & ->). rewrite Hq. exact IH.
      * rewrite Hq. exact IH.
  - intros Hq st' Hload. unfold E.onQuillLoaded in Hload.
    destruct (onQuillLoaded_disabled st)
      as (_ & Hd & [(Hret & Ha) | (Hthrow & _)]).
    + destruct (E.onQuillLoaded_run rt st) as [st2 [e|]]; simpl in *;
        [discriminate|].
      injection Hload as <-. rewrite Hd, Ha.
      destruct (E._disabled st); [apply lookup_insert_eq | apply lookup_delete_eq].
    + destruct (E.onQuillLoaded_run rt st) as [st2 [e|]]; simpl in *;
        discriminate.
Qed.

End Lifecycle.

(** At the sample editor, once its engine has loaded. *)
Lemma reachable_alive_witness :
  E.alive
    (Sample.ready (Sample.editor_inputs None false false None None (Some 400))
       (JsString "Hallo"))
  = if isSome
         (E._eventsSubscription
            (Sample.ready
               (Sample.editor_inputs None false false None None (Some 400))
               (JsString "Hallo")))
    then 1%nat else 0%nat.
Proof.
  exact (proj1 (reachable_alive Sample.runtime _
                  (sample_ready_reachable (Some 400)))).
Defined.

(** One registration set is alive on a loaded editor, none on an editor
    whose load stopped at the flush. *)
Example alive_loaded_and_stopped :
  E.alive
    (Sample.ready (Sample.editor_inputs None false false None None (Some 400))
       (JsString "Hallo")) = 1%nat /\
  E.alive
    (Sample.loaded
       (Sample.editor_inputs (Some FmtText) false false None None None)
       (JsObject [("a", JsNumber 1)])) = 0%nat.
Proof. vm_compute. split; reflexivity. Qed.

(** At the sample editor, once its engine has loaded. *)
Lemma onDestroy_teardown_witness :
  E.alive
    (E.onDestroy Sample.runtime
       (Sample.ready (Sample.editor_inputs None false false None None None)
          (JsString "Hallo"))) = 0%nat.
Proof.
  destruct (onDestroy_teardown Sample.runtime _ (sample_ready_reachable None))
    as (_ & _ & Halive & _).
  exact Halive.
Defined.

(** Destroying the loaded sample editor detaches the three listeners;
    destroying the one whose load stopped at the flush makes no call. *)
Example onDestroy_calls :
  (calls <$> E._quillEditor
     (E.onDestroy Sample.runtime
        (Sample.ready (Sample.editor_inputs None false false None None None)
           (JsString "Hallo"))))
  = Some [SetContents (JsObject [("ops", JsArray [])]) (Some "silent");
          HistoryClear; Enable None;
          On SelectionChange; On TextChange; On EditorChange;
          Off SelectionChange; Off TextChange; Off EditorChange] /\
  (calls <$> E._quillEditor
     (E.onDestroy Sample.runtime
        (Sample.loaded
           (Sample.editor_inputs (Some FmtText) false false None None None)
           (JsObject [("a", JsNumber 1)]))))
  = Some [SetText (JsObject [("a", JsNumber 1)]) (Some "silent")].
Proof. vm_compute. split; reflexivity. Qed.

(** At the sample editor, once its engine has loaded: it is not
    disabled. *)
Lemma reachable_disabled_attribute_witness :
  E.hostAttributes
    (Sample.ready (Sample.editor_inputs None false false None None None)
       (JsString "Hallo")) !! "disabled" = None \/
  (E.hostAttributes
     (Sample.ready (Sample.editor_inputs None false false None None None)
        (JsString "Hallo")) !! "disabled" = Some "disabled" /\
   is_Some
     (E._quillEditor
        (Sample.ready (Sample.editor_inputs None false false None None None)
           (JsString "Hallo"))) /\
   E._disabled
     (Sample.ready (Sample.editor_inputs None false false None None None)
        (JsString "Hallo")) = true).
Proof.
  exact (proj1 (reachable_disabled_attribute Sample.runtime _
                  (sample_ready_reachable None))).
Defined.

(** ** The disabled state before the engine has loaded *)

Section DisabledBeforeLoad.
Variable rt : Runtime.

Lemma detached_no_toggle (st : E.Editor) :
  List.filter is_toggle (E.detached st) = [].
Proof.
  unfold E.detached.
  destruct (E._eventsSubscription st) as [i|]; [|reflexivity].
  destruct (E.subscriptions st !! i) as [s|]; [|reflexivity].
  destruct (E.closed s); [reflexivity|].
  induction (E.listeners s) as [|l ls IH]; [reflexivity | exact IH].
Qed.

(** X11: before the instance exists, [setDisabledState] only stores the
    flag.  When the engine loads and the loader's subscriber returns, the
    stored flag has decided the one call that switches the instance:
    [disable()] if it is set, otherwise [enable()] unless the [readOnly]
    input is set, in which case no such call is made.  When the subscriber
    throws, which it does if the engine refuses the flush, the instance has
    not been switched at all. *)
Theorem setDisabledState_before_instance (st : E.Editor) (b : bool) :
  E._quillEditor st = None ->
  E.setDisabledState rt (Some b) st = E.set_disabled b st /\
  exists q,
    E._quillEditor (fst (E.onQuillLoaded_run rt (E.set_disabled b st)))
      = Some q /\
    List.filter is_toggle (calls q)
      = match E.onQuillLoaded rt (E.set_disabled b st) with
        | Ok _ =>
            if b then [Disable]
            else if truthy_flag (E.readOnly (E.inputs st)) then []
            else [Enable None]
        | Throw _ => []
        end.
Proof.
  intros Hq. split.
  { unfold E.setDisabledState. cbn [E._quillEditor E.set_disabled default].
    rewrite Hq. reflexivity. }
  assert (Hflushes : forall w, E.flushes rt (E.set_disabled b st) w ->
                               is_toggle w = false).
  { intros w Hw. unfold E.flushes in Hw.
    destruct (E.resolved_format (E.set_disabled b st));
      try destruct Hw as (nv & _ & Hw); subst w; reflexivity. }
  unfold E.onQuillLoaded.
  destruct (onQuillLoaded_run_spec rt (E.set_disabled b st))
    as [(st' & flush & -> & Hflush & Hquill & _) | (w & _ & Hw & _ & ->)].
  - eexists. split; [exact Hquill|]. simpl.
    rewrite calls_invoke_all. simpl.
    rewrite !List.filter_app, detached_no_toggle. simpl. rewrite app_nil_r.
    assert (Hnone : List.filter is_toggle flush = []).
    { destruct (truthy (E._content (E.set_disabled b st))).
      - destruct Hflush as (w & -> & Hw & _). simpl.
        rewrite (Hflushes w Hw). reflexivity.
      - subst flush. reflexivity. }
    rewrite Hnone. unfold E.toggle_calls. simpl.
    destruct b; [reflexivity|].
    destruct (truthy_flag (E.readOnly (E.inputs st))); reflexivity.
  - eexists. split; [reflexivity|]. simpl. rewrite (Hflushes w Hw). reflexivity.
Qed.

End DisabledBeforeLoad.

(** At a freshly created editor that a form disables. *)
Lemma setDisabledState_before_instance_witness :
  E.setDisabledState Sample.runtime (Some true)
    (E.created (Sample.editor_inputs None false false None None None)
       Sample.config Sample.observers)
  = E.set_disabled true
      (E.created (Sample.editor_inputs None false false None None None)
         Sample.config Sample.observers).
Proof.
  exact (proj1 (setDisabledState_before_instance Sample.runtime
                  (E.created
                     (Sample.editor_inputs None false false None None None)
                     Sample.config Sample.observers)
                  true eq_refl)).
Defined.

(** ** Marking the model as touched *)

Section Touched.

(** X12: a selection change marks the model as touched exactly when the
    new range is [null], a touched callback is registered, and the source
    is [user] or the track-changes mode, the component's before the
    service's, is [all]; whether the outputs are observed plays no part,
    and when nothing is observed and the model is not to be marked,
    nothing at all is sent. *)
Theorem selectionChangeHandler_touched (st : E.Editor)
    (range oldRange : option Range.t) (source : string) :
  exists new,
    E.emitted (E.selectionChangeHandler range oldRange source st)
      = E.emitted st ++ new /\
    List.filter is_modelTouched new
      = (if negb (isSome range) && E._onModelTouched st &&
            (String.eqb source "user" ||
             bool_decide (or_else (E.trackChanges (E.inputs st))
                                  (cfg_trackChanges (E.config st))
                          = Some TrackAll))
         then [E.ModelTouched] else []) /\
    (E.selection_suppressed range source st = true -> new = []).
Proof.
  assert (Htrack : forall t : option TrackChanges,
            E.track_all t = bool_decide (t = Some TrackAll)).
  { intros [[|]|]; reflexivity. }
  rewrite <- Htrack.
  change (negb (isSome range) && E._onModelTouched st &&
          (String.eqb source "user" ||
           E.track_all (or_else (E.trackChanges (E.inputs st))
                                (cfg_trackChanges (E.config st)))))
    with (E.shouldTriggerOnModelTouched range source st).
  unfold E.selectionChangeHandler.
  destruct (E.selection_suppressed range source st) eqn:Hs.
  - exists []. rewrite app_nil_r. split; [reflexivity|].
    split; [|reflexivity].
    unfold E.selection_suppressed in Hs.
    apply andb_true_iff in Hs as [_ Hs]. apply negb_true_iff in Hs.
    rewrite Hs. reflexivity.
  - destruct range as [r|], oldRange as [o|],
      (E.shouldTriggerOnModelTouched _ source st); simpl;
      rewrite <- ?app_assoc; eexists;
      (split; [reflexivity|]); split; try reflexivity; discriminate.
Qed.

End Touched.

(** ** Validation errors that exclude each other *)

Section ValidationFacts.

(** X13: a result of [validate()] that is not [null] carries at least one
    error; [requiredError] and [minLengthError] never come together; and
    [minLengthError] and [maxLengthError] come together only for one and
    the same length that lies above the maximum and below the minimum. *)
Theorem validate_errors_exclusive (st : E.Editor) (err : E.ValidationErrors) :
  E.validate st = Some err ->
  (is_Some (E.minLengthError err) \/ is_Some (E.maxLengthError err) \/
   E.requiredError err = Some true) /\
  (E.requiredError err = Some true -> E.minLengthError err = None) /\
  (forall g1 m1 g2 m2,
     E.minLengthError err = Some (g1, m1) ->
     E.maxLengthError err = Some (g2, m2) ->
     g1 = g2 /\ m2 < g1 /\ g1 < m1).
Proof.
  unfold E.validate. destruct (E._quillEditor st) as [q|]; [|discriminate].
  cbv zeta.
  set (n := E.textLength _ _).
  set (mn := default 0 (E.minLength (E.inputs st))).
  set (mx := default 0 (E.maxLength (E.inputs st))).
  destruct (truthy_num (E.minLength (E.inputs st))),
    (truthy_num (E.maxLength (E.inputs st))),
    (E.required (E.inputs st)),
    (E.onlyEmptyOperation (ops (getContents q))),
    (Z.eqb_spec n 0), (Z.ltb_spec n mn), (Z.ltb_spec mx n);
    simpl; intros [= <-]; simpl;
    (split; [eauto 6|]); (split; [try reflexivity; try discriminate|]);
    intros g1 m1 g2 m2 H1 H2; try discriminate;
    injection H1 as <- <-; injection H2 as <- <-; lia.
Qed.

End ValidationFacts.

(** At six characters with a minimum of 3 and a maximum of 5. *)
Lemma validate_errors_exclusive_witness :
  is_Some (E.minLengthError
             {| E.minLengthError := None; E.maxLengthError := Some (6, 5);
                E.requiredError := None |}) \/
  is_Some (E.maxLengthError
             {| E.minLengthError := None; E.maxLengthError := Some (6, 5);
                E.requiredError := None |}) \/
  E.requiredError
    {| E.minLengthError := None; E.maxLengthError := Some (6, 5);
       E.requiredError := None |} = Some true.
Proof.
  assert (Hv : E.validate
                 (Sample.ready
                    (Sample.editor_inputs (Some FmtText) false false
                       (Some 3) (Some 5) None)
                    (JsString "123456"))
               = Some {| E.minLengthError := None;
                         E.maxLengthError := Some (6, 5);
                         E.requiredError := None |})
    by (vm_compute; reflexivity).
  exact (proj1 (validate_errors_exclusive _ _ Hv)).
Defined.

(** ** The read-only binder over its life *)

Section ViewFacts.
Variable rt : Runtime.

(** The one call of the view's [valueSetter] is a write without a source. *)
Lemma view_valueSetter_plain (st : V.View) (q : Quill) (v : JsValue) :
  exists c,
    V.valueSetter rt st q v = Ok (invoke rt c q) /\ is_plain_write c = true.
Proof.
  unfold V.valueSetter.
  destruct (V.resolved_format st); eauto.
  destruct (JSON_parse rt v); simpl; eauto.
Qed.

(** X14: whatever content values a view receives, before or after its
    engine has loaded, every call it ever makes on its instance is a
    [setText] or [setContents] without a source: it never enables or
    disables the instance, never clears the history, never attaches a
    listener and never writes silently. *)
Theorem view_only_plain_writes (st : V.View) :
  ViewLife.reachable rt st ->
  forallb is_plain_write (default [] (calls <$> V.quillEditor st)) = true.
Proof.
  induction 1 as [i c | a st st' Hr IH Hstep]; [reflexivity|].
  assert (Hset : forall (st0 : V.View) (q : Quill) (v : JsValue) st1,
    forallb is_plain_write (calls q) = true ->
    (q' ← V.valueSetter rt st0 q v; Ok (V.set_quillEditor (Some q') st0))
      = Ok st1 ->
    forallb is_plain_write (default [] (calls <$> V.quillEditor st1)) = true).
  { intros st0 q v st1 Hq Hrun.
    destruct (view_valueSetter_plain st0 q v) as (w & Hw & Hplain).
    rewrite Hw in Hrun. unfold_bind. injection Hrun as <-. simpl.
    rewrite forallb_app, Hq. simpl. rewrite Hplain. reflexivity. }
  destruct a as [v|]; simpl in Hstep.
  - unfold V.change_content, V.content_subscriber in Hstep.
    cbn [V.quillEditor V.set_inputs] in Hstep.
    destruct (V.quillEditor st) as [q|] eqn:Hq.
    + destruct (truthy v).
      * exact (Hset _ q v st' IH Hstep).
      * injection Hstep as <-. simpl. rewrite Hq. exact IH.
    + injection Hstep as <-. simpl. rewrite Hq. reflexivity.
  - destruct (V.quillEditor st) as [q|] eqn:Hq.
    + injection Hstep as <-. rewrite Hq. exact IH.
    + unfold V.onQuillLoaded in Hstep.
      cbn [V.inputs V.set_quillEditor] in Hstep.
      destruct (truthy (V.content (V.inputs st))).
      * refine (Hset _ (new_Quill rt (V.resolved_options st)) _ st' _ Hstep).
        reflexivity.
      * injection Hstep as <-. reflexivity.
Qed.

End ViewFacts.

(** A view that has loaded its engine with [Hallo] as its content. *)
Lemma sample_view_reachable :
  ViewLife.reachable Sample.runtime
    (Sample.view_ready (Some FmtText) (JsString "Hallo")).
Proof.
  apply (ViewLife.reachable_step Sample.runtime ViewLife.QuillLoaded
           (Sample.view_waiting (Some FmtText) (JsString "Hallo"))).
  - apply ViewLife.reachable_created.
  - vm_compute. reflexivity.
Qed.

(** At that view. *)
Lemma view_only_plain_writes_witness :
  forallb is_plain_write
    (default []
       (calls <$> V.quillEditor
          (Sample.view_ready (Some FmtText) (JsString "Hallo")))) = true.
Proof.
  exact (view_only_plain_writes Sample.runtime _ sample_view_reachable).
Defined.

(** ** The HTML-only binder *)

Section ViewHTMLFacts.

(** X15: the class of the HTML-only binder always names the theme that
    the other two binders hand to the engine: the theme input if it is a
    non-empty string, otherwise the service's theme if that is one,
    otherwise [snow]; both branches of the subscriber compute it, and the
    rendered HTML is not touched. *)
Theorem theme_subscriber_themeClass (config : QuillConfig)
    (newTheme : option string) (st : QuillViewHTMLComponent.ViewHTML) :
  QuillViewHTMLComponent.themeClass
    (QuillViewHTMLComponent.theme_subscriber config newTheme st)
    = "ql-" +:+ resolve_theme newTheme (cfg_theme config)
      +:+ " ngx-quill-view-html" /\
  QuillViewHTMLComponent.innerHTML
    (QuillViewHTMLComponent.theme_subscriber config newTheme st)
    = QuillViewHTMLComponent.innerHTML st.
Proof.
  unfold QuillViewHTMLComponent.theme_subscriber, resolve_theme,
    QuillViewHTMLComponent.truthy_text.
  destruct newTheme as [t|]; [destruct (String.eqb t "")|];
    destruct (cfg_theme config) as [c|]; try destruct (String.eqb c "");
    split; reflexivity.
Qed.

End ViewHTMLFacts.

(** ** Silent writes *)

Section SilentWrites.
Variable rt : Runtime.

Lemma loud_app (a b : list Call) : loud (a ++ b) = loud a && loud b.
Proof. apply forallb_app. Qed.

Lemma detached_loud (st : E.Editor) : loud (E.detached st) = true.
Proof.
  unfold E.detached.
  destruct (E._eventsSubscription st) as [i|]; [|reflexivity].
  destruct (E.subscriptions st !! i) as [s|]; [|reflexivity].
  destruct (E.closed s); [reflexivity|].
  induction (E.listeners s) as [|l ls IH]; [reflexivity | exact IH].
Qed.

Lemma toggle_calls_loud (b : option bool) (st : E.Editor) :
  loud (E.toggle_calls b st) = true.
Proof.
  unfold E.toggle_calls.
  destruct (default (E._disabled st) b),
    (truthy_flag (E.readOnly (E.inputs st))); reflexivity.
Qed.

(** The calls that one action on a component with an instance adds, whether
    it returns or throws. *)
Lemma step_appends (a : E.Action) (st : E.Editor) (q : Quill) :
  E._quillEditor st = Some q ->
  exists cs,
    E._quillEditor (fst (E.run rt a st)) = Some (invoke_all rt cs q) /\
    loud cs = true.
Proof.
  intros Hq.
  destruct a as [| v | b | d | | range oldRange source]; simpl.
  - exists []. split; [exact Hq | reflexivity].
  - unfold E.writeValue_run.
    destruct (E.filterNull (E.inputs st) && is_null v).
    { exists []. split; [exact Hq | reflexivity]. }
    cbn [E._quillEditor E.set_content]. rewrite Hq.
    destruct (valueSetter_total rt (E.set_content v st) q v) as [nv ->].
    assert (Hcall : forall w, is_silent_write w = false ->
      exists cs,
        E._quillEditor (fst (E.write rt w (E.set_content v st)))
          = Some (invoke_all rt cs q) /\ loud cs = true).
    { intros w Hw. exists [w]. split.
      - rewrite write_fst. unfold E.call. simpl. rewrite Hq. reflexivity.
      - unfold loud. simpl. rewrite Hw. reflexivity. }
    destruct (E.compareValues (E.inputs (E.set_content v st)) && _).
    { exists []. split; [exact Hq | reflexivity]. }
    destruct (truthy v); [destruct (E.resolved_format _)|];
      apply Hcall; reflexivity.
  - exists (E.toggle_calls (Some b) st).
    rewrite setDisabledState_quillEditor, Hq.
    split; [reflexivity | apply toggle_calls_loud].
  - rewrite (change_debounceTime_run_spec rt d st q Hq).
    destruct (truthy_num d); simpl.
    + eexists. split; [reflexivity|].
      rewrite loud_app, detached_loud. reflexivity.
    + exists []. split; [exact Hq | reflexivity].
  - rewrite Hq. exists []. split; [exact Hq | reflexivity].
  - rewrite Hq. simpl. exists [].
    split; [|reflexivity].
    unfold E.selectionChangeHandler.
    destruct (E.selection_suppressed range source st); [exact Hq|].
    destruct range, oldRange, (E.shouldTriggerOnModelTouched _ source st);
      exact Hq.
Qed.

(** X16: over the whole life of a component, the only call on its
    instance that can be a silent write is the very first one, the flush of
    the value buffered before the engine loaded; every later call, in
    particular every write of [writeValue], is not silent. *)
Theorem reachable_silent_only_first (st : E.Editor) :
  E.reachable rt st ->
  loud (drop 1 (default [] (calls <$> E._quillEditor st))) = true.
Proof.
  induction 1 as [i c o | a st Hr IH]; [reflexivity|].
  destruct (E._quillEditor st) as [q|] eqn:Hq.
  - destruct (step_appends a st q Hq) as (cs & -> & Hcs).
    simpl in *. rewrite calls_invoke_all.
    destruct (calls q) as [|c0 l0]; simpl in *.
    + destruct cs as [|c1 cs1]; [reflexivity|].
      simpl in Hcs. apply andb_true_iff in Hcs as [_ Hcs]. exact Hcs.
    + change (drop 0 (l0 ++ cs)) with (l0 ++ cs).
      change (drop 0 l0) with l0 in IH.
      rewrite loud_app, IH, Hcs. reflexivity.
  - destruct a as [| v | b | d | | range oldRange source]; simpl.
    + rewrite Hq. reflexivity.
    + destruct (writeValue_frame rt v st) as (_ & _ & _ & _ & Hn).
      rewrite (proj2 Hn Hq). reflexivity.
    + rewrite setDisabledState_quillEditor, Hq. reflexivity.
    + rewrite (change_debounceTime_run_none rt d st Hq). simpl.
      rewrite Hq. reflexivity.
    + rewrite Hq.
      destruct (onQuillLoaded_run_spec rt st)
        as [(st2 & flush & -> & Hflush & Hquill & _) | (w & _ & _ & _ & ->)];
        [|reflexivity].
      simpl. rewrite Hquill. simpl. rewrite calls_invoke_all. simpl.
      assert (Hrest : loud (E.toggle_calls None st ++ E.detached st ++
                            [On SelectionChange; On TextChange; On EditorChange])
                      = true).
      { rewrite !loud_app, toggle_calls_loud, detached_loud. reflexivity. }
      destruct (truthy (E._content st)).
      * destruct Hflush as (w & -> & _). simpl. exact Hrest.
      * subst flush. simpl.
        destruct (E.toggle_calls None st ++ _) as [|c0 cs0]; [reflexivity|].
        simpl in Hrest. apply andb_true_iff in Hrest as [_ Hrest]. exact Hrest.
    + rewrite Hq. simpl. rewrite Hq. reflexivity.
Qed.

End SilentWrites.

(** At the sample editor, once its engine has loaded. *)
Lemma reachable_silent_only_first_witness :
  loud (drop 1
          (default []
             (calls <$> E._quillEditor
                (Sample.ready
                   (Sample.editor_inputs None false false None None None)
                   (JsString "Hallo"))))) = true.
Proof.
  exact (reachable_silent_only_first Sample.runtime _
           (sample_ready_reachable None)).
Defined.

(** ** Writing back what was read *)

Section ReadBack.
Variable rt : Runtime.
Variable getSemanticHTML : Quill -> string.

(** X17: with the comparison of values switched on, writing back the value
    that [valueGetter] has just produced makes no call on the instance
    under the object format, and under the json format whenever
    [JSON.parse] of the produced string gives a value that serialises to
    the same string; the value is cached all the same. *)
Theorem writeValue_read_back (st : E.Editor) (o : ReadPath.Outputs) (q : Quill) :
  E._quillEditor st = Some q ->
  E.compareValues (E.inputs st) = true ->
  (E.resolved_format st = FmtObject \/
   E.resolved_format st = FmtJson /\
   exists s d,
     JSON_stringify rt (delta_value (getContents q)) = Some s /\
     JSON_parse rt (JsString s) = Ok d /\
     JSON_stringify rt d = Some s) ->
  E.writeValue rt (ReadPath.valueGetter rt getSemanticHTML st o q) st
  = Ok (E.set_content (ReadPath.valueGetter rt getSemanticHTML st o q) st).
Proof.
  intros Hq Hcmp Hfmt.
  unfold E.writeValue, E.writeValue_run.
  assert (Hnn : is_null (ReadPath.valueGetter rt getSemanticHTML st o q) = false).
  { unfold ReadPath.valueGetter.
    destruct Hfmt as [-> | [-> (s & d & -> & _)]]; reflexivity. }
  rewrite Hnn, andb_false_r.
  cbn [E._quillEditor E.set_content E.inputs E.compareValues]. rewrite Hq, Hcmp.
  change (E.valueSetter rt (E.set_content ?v st) q ?x)
    with (E.valueSetter rt st q x).
  unfold E.valueSetter, ReadPath.valueGetter.
  destruct Hfmt as [-> | [-> (s & d & Hs & Hd & Hsd)]].
  - unfold_bind. rewrite bool_decide_eq_true_2 by reflexivity. reflexivity.
  - rewrite Hs, Hd. unfold_bind. simpl.
    rewrite bool_decide_eq_true_2 by (rewrite Hsd; reflexivity). reflexivity.
Qed.

End ReadBack.

(** At a loaded editor under the object format. *)
Lemma writeValue_read_back_witness :
  E.writeValue Sample.runtime
    (ReadPath.valueGetter Sample.runtime MoreSamples.getSemanticHTML
       (Sample.ready (MoreSamples.comparing_inputs (Some FmtObject)) JsUndefined)
       MoreSamples.outputs
       (Sample.ready_quill (MoreSamples.comparing_inputs (Some FmtObject))
          JsUndefined))
    (Sample.ready (MoreSamples.comparing_inputs (Some FmtObject)) JsUndefined)
  = Ok (E.set_content
          (ReadPath.valueGetter Sample.runtime MoreSamples.getSemanticHTML
             (Sample.ready (MoreSamples.comparing_inputs (Some FmtObject))
                JsUndefined)
             MoreSamples.outputs
             (Sample.ready_quill (MoreSamples.comparing_inputs (Some FmtObject))
                JsUndefined))
          (Sample.ready (MoreSamples.comparing_inputs (Some FmtObject))
             JsUndefined)).
Proof.
  apply (writeValue_read_back Sample.runtime).
  - vm_compute. reflexivity.
  - vm_compute. reflexivity.
  - left. vm_compute. reflexivity.
Defined.
